(** * PencilBlue plugin API controller

    A shallow embedding of
    [plugins/pencilblue/controllers/api/plugins/plugin_api.js]: the
    request validation of [render], the five action handlers it routes
    to, and the collaborators they call (plugin service, job runners,
    settings store, request handler).

    - JavaScript values are an inductive type; objects are finite maps
      of own properties over Object.prototype.
    - A handler is a computation that yields the trace of the calls it
      makes on its collaborators and completes normally or with an
      exception.
    - The collaborators are the oracles of a [world]: each gives what
      the collaborator hands to its callback. The identifiers the
      module reads without declaring them are looked up in the global
      object of the host, also part of the [world]. *)

From Stdlib Require Import ZArith.
From stdpp Require Import base option list strings gmap.

Local Open Scope string_scope.
Local Open Scope list_scope.
Local Open Scope Z_scope.

Set Warnings "-register-all".

(** ** JavaScript values *)

Module JS.

(** The values the controller handles: primitives, opaque callable
    objects, arrays and plain objects with their own properties. *)
Inductive js_value : Type :=
| JUndefined
| JNull
| JBool (b : bool)
| JNum (n : Z)
| JStr (s : string)
| JFun (name : string)
| JArr (items : list js_value)
| JObj (props : gmap string js_value).

(** ToBoolean. *)
Definition truthy (v : js_value) : bool :=
  match v with
  | JUndefined | JNull => false
  | JBool b => b
  | JNum n => negb (n =? 0)
  | JStr s => negb (String.eqb s "")
  | JFun _ | JArr _ | JObj _ => true
  end.

Definition is_undefined (v : js_value) : bool :=
  match v with JUndefined => true | _ => false end.

(** [v !== false]. *)
Definition strict_ne_false (v : js_value) : bool :=
  match v with JBool false => false | _ => true end.

(** [v !== s] for a string [s]. *)
Definition strict_ne_str (v : js_value) (s : string) : bool :=
  match v with JStr s' => negb (String.eqb s' s) | _ => true end.

(** pb.util.isObject: the value's class tag is [object Object]. *)
Definition isObject (v : js_value) : bool :=
  match v with JObj _ => true | _ => false end.

(** The members every plain object inherits from Object.prototype. All
    are functions but [__proto__], an accessor that yields the prototype
    object itself. *)
Definition Object_prototype_methods : list string :=
  [ "constructor"; "toString"; "toLocaleString"; "valueOf";
    "hasOwnProperty"; "isPrototypeOf"; "propertyIsEnumerable";
    "__defineGetter__"; "__defineSetter__";
    "__lookupGetter__"; "__lookupSetter__" ].

Definition Object_prototype : gmap string js_value :=
  list_to_map (map (fun k => (k, JFun k)) Object_prototype_methods).

Definition Object_prototype_get (k : string) : js_value :=
  if String.eqb k "__proto__" then JObj Object_prototype
  else match Object_prototype !! k with
       | Some v => v
       | None => JUndefined
       end.

(** Exceptions the controller's own code can raise. *)
Inductive js_exn : Type :=
| ReferenceError (ident : string)
| TypeError (what : string).

(** Error objects passed as the first argument of a callback. Callbacks
    follow the Node convention: that argument is null or an Error, so
    [util.isError(err)] and the truthiness test of [async] coincide and
    both are the [Some] case of [option js_error]. *)
Record validation_failure : Type := { vf_message : string }.

Record js_error : Type := {
  message : string;
  validationErrors : option (list validation_failure)
}.

(** [new Error(msg)]: no [validationErrors] property. *)
Definition new_Error (msg : string) : js_error :=
  {| message := msg; validationErrors := None |}.

End JS.
Export JS.

(** ** Effects: a call trace and exceptions *)

Module Eff.

(** BaseController.API_SUCCESS and API_FAILURE. *)
Inductive api_status : Type := API_SUCCESS | API_FAILURE.

(** Modelled from the spec: BaseController.apiResponse is not part of
    this file; the spec (section 3) gives the envelope as
    {status, message, data}. [data] is [None] when the call passes no
    third argument. *)
Record envelope : Type := {
  status : api_status;
  env_message : string;
  data : option js_value
}.

Definition apiResponse (cd : api_status) (msg : string)
    (dta : option js_value) : envelope :=
  {| status := cd; env_message := msg; data := dta |}.

(** The object handed to the controller callback: [{content, code}],
    [code] being optional. *)
Record response : Type := {
  content : envelope;
  code : option Z
}.

Inductive job_kind : Type := InstallJob | UninstallJob.

(** The context object of a job constructor (the plugin service it also
    carries is not observed here). *)
Record job_ctx : Type := {
  ctx_name : string;
  pluginUid : js_value;
  initiator : bool
}.

(** The calls the controller makes on its collaborators, in order. *)
Inductive event : Type :=
| ENewJob (kind : job_kind) (ctx : job_ctx)
| EJobInit (kind : job_kind) (name : js_value)
| ESetRunAsInitiator (kind : job_kind) (b : bool)
| EJobRun (kind : job_kind)
| EGetPluginBySite (uid : js_value)
| EResetSettings (details : js_value)
| EResetThemeSettings (details : js_value)
| EInitPlugin (plugin : js_value)
| ESettingsSet (key : string) (value : js_value)
| EServe404
| ECallback (r : response)
| EInheritedMember (name : string) (arg : js_value).

Inductive completion (A : Type) : Type :=
| Normal (a : A)
| Throw (e : js_exn).
Arguments Normal {A} a.
Arguments Throw {A} e.

(** A computation yields the calls it made and how it completed. An
    exception raised inside a collaborator's callback leaves the
    controller through that collaborator, so the handler as a whole
    completes with [Throw]. *)
Definition M (A : Type) : Type := list event * completion A.

Definition ret {A} (a : A) : M A := ([], Normal a).

Definition bind {A B} (m : M A) (f : A -> M B) : M B :=
  match m with
  | (t, Normal a) => let '(t', r) := f a in (t ++ t', r)
  | (t, Throw e) => (t, Throw e)
  end.

Definition throw {A} (e : js_exn) : M A := ([], Throw e).

Definition emit (e : event) : M unit := ([e], Normal tt).

Definition trace {A} (m : M A) : list event := fst m.
Definition outcome {A} (m : M A) : completion A := snd m.

End Eff.
Export Eff.

Declare Scope js_scope.
Delimit Scope js_scope with js.
Notation "x <- m ;; k" := (bind m (fun x => k))
  (at level 100, m at next level, right associativity) : js_scope.
Notation "m ;;; k" := (bind m (fun _ => k))
  (at level 100, right associativity) : js_scope.
Local Open Scope js_scope.

(** ** The environment of the controller *)

Module Env.

(** What the module receives from outside: the host's global object,
    the [pb] services and the collaborators behind each callback. A
    collaborator invokes its callback once, with the values its oracle
    gives. *)
Record world : Type := {
  (** bindings of the host's global object *)
  globals : string -> option js_value;
  (** pb.validation.isNonEmptyStr(v, true) on a path variable
      ([None] is a path variable that is not set) *)
  isNonEmptyStr : option string -> bool;
  (** this.ls.g(key) *)
  ls_g : string -> string;
  (** util.format(fmt, uid) *)
  format : string -> js_value -> string;
  (** RequestHandler.DEFAULT_THEME *)
  DEFAULT_THEME : string;
  (** PluginInstallJob.createName and PluginUninstallJob.createName *)
  createName : job_kind -> js_value -> string;
  (** job.getId() *)
  getId : job_kind -> job_ctx -> js_value;
  (** pluginService.getPluginBySite(uid, cb): the (err, plugin) given
      to cb *)
  getPluginBySite : js_value -> option js_error * js_value;
  (** the load method of a details loader *)
  loader_load : js_value -> js_value;
  (** pluginService.resetSettings(details, cb): the (err, result) given
      to cb *)
  resetSettings : js_value -> option js_error * js_value;
  (** pluginService.resetThemeSettings(details, cb) *)
  resetThemeSettings : js_value -> option js_error * js_value;
  (** pluginService.initPlugin(plugin, cb): the err given to cb *)
  initPlugin : js_value -> option js_error;
  (** settings.set(key, value, cb): the err given to cb *)
  settings_set : string -> js_value -> option js_error
}.

(** The names bound in the scope of the module function. *)
Definition module_scope : list string :=
  [ "async"; "pb"; "util"; "BaseController"; "PluginService";
    "RequestHandler"; "PluginUninstallJob"; "PluginInstallJob";
    "PluginApiController"; "VALID_ACTIONS" ].

(** Whether an identifier is bound by a function's own parameters and
    variables or by the module scope. *)
Definition declared (locals : list string) (x : string) : bool :=
  existsb (String.eqb x) (locals ++ module_scope).

(** Reading an identifier bound in neither: the global object decides,
    and strict mode raises a ReferenceError when it has no binding. *)
Definition read_global (w : world) (x : string) : M js_value :=
  match globals w x with
  | Some v => ret v
  | None => throw (ReferenceError x)
  end.

(** Property lookup on an object: own properties, then
    Object.prototype. *)
Definition get_own_or_inherited (props : gmap string js_value)
    (k : string) : js_value :=
  match props !! k with
  | Some v => v
  | None => Object_prototype_get k
  end.

(** [v.k]. Reading a property of undefined or null raises a TypeError.
    Of the members of primitive wrappers, functions and arrays only
    those of Object.prototype are given: the module reads no other. *)
Definition get_prop (v : js_value) (k : string) : M js_value :=
  match v with
  | JUndefined | JNull => throw (TypeError k)
  | JObj props => ret (get_own_or_inherited props k)
  | _ => ret (Object_prototype_get k)
  end.

(** [o.load(arg)] for the object [o] bound to PluginDetailsLoader. *)
Definition call_load (w : world) (o arg : js_value) : M js_value :=
  f <- get_prop o "load" ;;
  match f with
  | JFun _ => ret (loader_load w arg)
  | _ => throw (TypeError "load")
  end.

(** The controller callback [cb]; [None] when the caller passed none. *)
Definition callback : Type := option (response -> M unit).

Definition call (cb : callback) (r : response) : M unit :=
  match cb with
  | Some k => k r
  | None => throw (TypeError "cb")
  end.

(** The callback the request handler passes to [render]. *)
Definition respond : callback := Some (fun r => emit (ECallback r)).

(** A path variable as a value. *)
Definition path_value (v : option string) : js_value :=
  match v with Some s => JStr s | None => JUndefined end.

(** A path variable as a property key. *)
Definition path_key (v : option string) : string :=
  match v with Some s => s | None => "undefined" end.

End Env.
Export Env.

(** ** async.series *)

Module Async.

(** A task of a series: it reads and may assign the variables the tasks
    share ([S]) and hands (err, result) to its callback. *)
Definition task (S : Type) : Type :=
  S -> M (S * (option js_error * js_value)).

(** [async.series(tasks, final)]: the tasks run in order, each after
    the one before it has called back; the first error ends the run
    and goes to [final]; with no error [final] gets the results. *)
Fixpoint series {S R : Type} (tasks : list (task S)) (s : S)
    (results : list js_value)
    (final : option js_error -> list js_value -> M R) : M R :=
  match tasks with
  | [] => final None results
  | t :: rest =>
      r <- t s ;;
      let '(s', (err, res)) := r in
      match err with
      | Some e => final (Some e) (results ++ [res])
      | None => series rest s' (results ++ [res]) final
      end
  end.

(** How a series ends, leaving out what [final] does with it: the error
    (if any) and the results handed to [final]. *)
Definition series_end {S : Type} (tasks : list (task S)) (s : S)
    : M (option js_error * list js_value) :=
  series tasks s [] (fun err results => ret (err, results)).

(** A task that calls back with an error, whatever the shared variables
    hold when it starts. *)
Definition fails {S : Type} (t : task S) : Prop :=
  forall s, exists tr s' e res, t s = (tr, Normal (s', (Some e, res))).

End Async.
Export Async.

(** ** The controller *)

Module PluginApiController.

(** The hash of the actions the controller offers. *)
Definition VALID_ACTIONS : gmap string js_value :=
  <["install" := JBool true]>
  (<["uninstall" := JBool true]>
  (<["reset_settings" := JBool true]>
  (<["initialize" := JBool true]>
  (<["set_theme" := JBool true]> ∅)))).

(** [VALID_ACTIONS[action]] *)
Definition valid_action (action : option string) : js_value :=
  get_own_or_inherited VALID_ACTIONS (path_key action).

Definition install_locals : list string :=
  [ "uid"; "cb"; "ctx"; "job"; "content" ].

Definition install (w : world) (uid : js_value) (cb : callback) : M unit :=
  let cb : callback :=
    match cb with Some k => Some k | None => Some (fun _ => ret tt) end in
  let ctx := {| ctx_name := createName w InstallJob uid;
                pluginUid := uid;
                initiator := true |} in
  emit (ENewJob InstallJob ctx) ;;;
  name <- read_global w "name" ;;
  emit (EJobInit InstallJob name) ;;;
  emit (ESetRunAsInitiator InstallJob true) ;;;
  emit (EJobRun InstallJob) ;;;
  let content :=
    apiResponse API_SUCCESS "" (Some (getId w InstallJob ctx)) in
  call cb {| content := content; code := None |}.

Definition uninstall_locals : list string :=
  [ "uid"; "cb"; "name"; "ctx"; "job"; "content" ].

Definition uninstall (w : world) (uid : js_value) (cb : callback)
    : M unit :=
  let name := createName w UninstallJob uid in
  options <- read_global w "options" ;;
  forCluster <- get_prop options "forCluster" ;;
  let ctx := {| ctx_name := name;
                pluginUid := uid;
                initiator := strict_ne_false forCluster |} in
  emit (ENewJob UninstallJob ctx) ;;;
  emit (EJobInit UninstallJob (JStr name)) ;;;
  options <- read_global w "options" ;;
  forCluster <- get_prop options "forCluster" ;;
  emit (ESetRunAsInitiator UninstallJob (strict_ne_false forCluster)) ;;;
  emit (EJobRun UninstallJob) ;;;
  let content :=
    apiResponse API_SUCCESS "" (Some (getId w UninstallJob ctx)) in
  call cb {| content := content; code := None |}.

Definition reset_settings_locals : list string :=
  [ "uid"; "cb"; "self"; "details"; "tasks"; "callback"; "err"; "plugin";
    "detailsFile"; "results"; "data"; "i"; "content"; "json" ].

(** First task: load the plugin. The variable the tasks share is
    [details]. *)
Definition load_plugin (w : world) (uid : js_value) : task js_value :=
  fun details =>
    emit (EGetPluginBySite uid) ;;;
    let '(err, plugin) := getPluginBySite w uid in
    if negb (truthy plugin) then
      ret (details,
           (Some (new_Error
                    (format w (ls_g w "generic.PLUGIN_NOT_FOUND") uid)),
            JBool false))
    else
      (* detailsFile = PluginService.getDetailsPath(plugin.dirName) *)
      _ <- get_prop plugin "dirName" ;;
      loader <- read_global w "PluginDetailsLoader" ;;
      dirName <- get_prop plugin "dirName" ;;
      details <- call_load w loader dirName ;;
      ret (details, (None, JBool (truthy details))).

(** Second task: pass the details to the settings reset. *)
Definition reset_plugin_settings (w : world) : task js_value :=
  fun details =>
    emit (EResetSettings details) ;;;
    ret (details, resetSettings w details).

(** Third task: pass the details to the theme settings reset. *)
Definition reset_theme_settings (w : world) : task js_value :=
  fun details =>
    theme <- get_prop details "theme" ;;
    no_settings <-
      (if negb (truthy theme) then ret true
       else settings <- get_prop theme "settings" ;;
            ret (negb (truthy settings))) ;;
    if no_settings : bool then ret (details, (None, JBool true))
    else
      emit (EResetThemeSettings details) ;;;
      ret (details, resetThemeSettings w details).

(** The completion callback of the series. *)
Definition reset_settings_done (w : world) (uid : js_value)
    (cb : callback) (err : option js_error) (results : list js_value)
    : M unit :=
  match err with
  | Some e =>
      let data := [message e] in
      let data :=
        match validationErrors e with
        | Some ves => fold_left (fun d ve => d ++ [vf_message ve]) ves data
        | None => data
        end in
      let content :=
        apiResponse API_FAILURE
          (format w (ls_g w "generic.RESET_SETTINGS_FAILED") uid)
          (Some (JArr (map JStr data))) in
      call cb {| content := content; code := Some 400 |}
  | None =>
      let json :=
        apiResponse API_SUCCESS
          (format w (ls_g w "generic.RESET_SETTINGS_SUCCESS") uid) None in
      call cb {| content := json; code := None |}
  end.

Definition reset_settings_tasks (w : world) (uid : js_value)
    : list (task js_value) :=
  [ load_plugin w uid; reset_plugin_settings w; reset_theme_settings w ].

Definition reset_settings (w : world) (uid : js_value) (cb : callback)
    : M unit :=
  let details := JNull in
  series (reset_settings_tasks w uid) details []
    (reset_settings_done w uid cb).

(** Initialise a plugin. *)
Definition initialize (w : world) (uid : js_value) (cb : callback)
    : M unit :=
  emit (EGetPluginBySite uid) ;;;
  let '(err, plugin) := getPluginBySite w uid in
  match err with
  | Some e =>
      let content :=
        apiResponse API_FAILURE
          (format w (ls_g w "generic.INITIALIZATION_FAILED") uid)
          (Some (JArr [JStr (message e)])) in
      call cb {| content := content; code := Some 500 |}
  | None =>
      emit (EInitPlugin plugin) ;;;
      let err := initPlugin w plugin in
      let content :=
        match err with
        | Some e =>
            apiResponse API_FAILURE
              (format w (ls_g w "generic.INITIALIZATION_FAILED") uid)
              (Some (JArr [JStr (message e)]))
        | None =>
            apiResponse API_SUCCESS
              (format w (ls_g w "generic.INITIALIZATION_SUCCESS") uid) None
        end in
      call cb {| content := content;
                 code := Some (if err is Some _ then 400 else 200) |}
  end.

(** Set the active theme. *)
Definition set_theme (w : world) (uid : js_value) (cb : callback)
    : M unit :=
  emit (EGetPluginBySite uid) ;;;
  let '(err, plugin) := getPluginBySite w uid in
  match strict_ne_str uid (DEFAULT_THEME w), err with
  | true, Some e =>
      let content :=
        apiResponse API_FAILURE
          (format w (ls_g w "generic.SET_THEME_FAILED") uid)
          (Some (JArr [JStr (message e)])) in
      call cb {| content := content; code := Some 500 |}
  | _, _ =>
      (* plugin wasn't found & has theme *)
      no_theme <-
        (if negb (strict_ne_str uid (DEFAULT_THEME w)) then ret false
         else if negb (truthy plugin) then ret true
         else theme <- get_prop plugin "theme" ;;
              ret (negb (isObject theme))) ;;
      if no_theme : bool then emit EServe404
      else
        theme <- (if truthy plugin then get_prop plugin "uid"
                  else ret uid) ;;
        emit (ESettingsSet "active_theme" theme) ;;;
        let err := settings_set w "active_theme" theme in
        let content :=
          match err with
          | Some e =>
              apiResponse API_FAILURE
                (format w (ls_g w "generic.SET_THEME_FAILED") uid)
                (Some (JArr [JStr (message e)]))
          | None =>
              apiResponse API_SUCCESS
                (format w (ls_g w "generic.SET_THEME_SUCCESS") uid) None
          end in
        call cb {| content := content;
                   code := Some (if err is Some _ then 500 else 200) |}
  end.

(** [this[action](identifier, cb)], for a name that passed the
    validation of [render]. The controller's prototype defines the five
    handlers; any other such name is a member of Object.prototype, and
    calling it leaves this module ([__proto__] is an object, and calling
    it a TypeError). *)
Definition this_member (w : world) (action : string)
    (identifier : js_value) (cb : callback) : M unit :=
  if String.eqb action "__proto__" then throw (TypeError "__proto__")
  else if String.eqb action "install" then install w identifier cb
  else if String.eqb action "uninstall" then uninstall w identifier cb
  else if String.eqb action "reset_settings" then
    reset_settings w identifier cb
  else if String.eqb action "initialize" then initialize w identifier cb
  else if String.eqb action "set_theme" then set_theme w identifier cb
  else emit (EInheritedMember action identifier).

(** The validation of [render]: the error messages it collects. *)
Definition validate (w : world) (action identifier : option string)
    : list string :=
  let errors : list string := [] in
  (* validate action *)
  let errors :=
    if negb (isNonEmptyStr w action) || is_undefined (valid_action action)
    then errors ++ [ls_g w "generic.VALID_ACTION_REQUIRED"]
    else errors in
  (* validate identifier *)
  let errors :=
    if truthy (valid_action action) && negb (isNonEmptyStr w identifier)
    then errors ++ [ls_g w "generic.VALID_IDENTIFIER_REQUIRED"]
    else errors in
  errors.

(** Route the request to its handler after validation. [action] and
    [identifier] are the path variables of the request. (The plugin
    service that [render] stores in the controller is the one behind
    the oracles of [w].) *)
Definition render (w : world) (action identifier : option string)
    (cb : callback) : M unit :=
  let errors := validate w action identifier in
  (* check for errors *)
  if (0 <? Z.of_nat (length errors))%Z then
    let content :=
      apiResponse API_FAILURE "" (Some (JArr (map JStr errors))) in
    call cb {| content := content; code := Some 400 |}
  else
    (* route to handler *)
    this_member w (path_key action) (path_value identifier) cb.

End PluginApiController.
Export PluginApiController.

(** ** Hosts to run the controller in *)

Module Host.

Definition sample_plugin : js_value :=
  JObj (<["uid" := JStr "sample"]>
       (<["dirName" := JStr "sample"]>
       (<["theme" := JObj (<["settings" := JArr []]> ∅)]> ∅))).

Definition plain_plugin : js_value :=
  JObj (<["uid" := JStr "plain"]> (<["dirName" := JStr "plain"]> ∅)).

Definition text_of (v : js_value) : string :=
  match v with JStr s => s | _ => "" end.

Definition invalid_settings : js_error :=
  {| message := "settings are invalid";
     validationErrors :=
       Some [ {| vf_message := "name is required" |};
              {| vf_message := "value is required" |} ] |}.

(** A host as Node gives it: the global object binds none of the
    identifiers the module reads from it. *)
Definition node_host : world := {|
  globals := fun _ => None;
  isNonEmptyStr := fun v =>
    match v with Some s => negb (String.eqb s "") | None => false end;
  ls_g := fun k => k;
  format := fun fmt uid => String.append fmt (String.append ":" (text_of uid));
  DEFAULT_THEME := "pencilblue";
  createName := fun k uid =>
    String.append
      (match k with InstallJob => "INSTALL_" | UninstallJob => "UNINSTALL_" end)
      (text_of uid);
  getId := fun k ctx => JStr (String.append "job-" (ctx_name ctx));
  getPluginBySite := fun uid =>
    match uid with
    | JStr "sample" => (None, sample_plugin)
    | JStr "plain" => (None, plain_plugin)
    | JStr "broken" => (Some (new_Error "lookup failed"), JUndefined)
    | JStr "pencilblue" => (Some (new_Error "lookup failed"), JNull)
    | _ => (None, JNull)
    end;
  loader_load := fun dir => JObj (<["uid" := dir]> ∅);
  resetSettings := fun details => (None, JBool true);
  resetThemeSettings := fun _ => (None, JBool true);
  initPlugin := fun _ => None;
  settings_set := fun _ _ => None
|}.

(** The same host with a global object that happens to bind the three
    identifiers, and a settings reset that calls back with [reset_err]. *)
Definition ambient_host (forCluster : js_value)
    (reset_err : option js_error) : world := {|
  globals := fun x =>
    if String.eqb x "name" then Some (JStr "ambient")
    else if String.eqb x "options" then
      Some (JObj (<["forCluster" := forCluster]> ∅))
    else if String.eqb x "PluginDetailsLoader" then
      Some (JObj (<["load" := JFun "load"]> ∅))
    else None;
  isNonEmptyStr := isNonEmptyStr node_host;
  ls_g := ls_g node_host;
  format := format node_host;
  DEFAULT_THEME := DEFAULT_THEME node_host;
  createName := createName node_host;
  getId := getId node_host;
  getPluginBySite := getPluginBySite node_host;
  loader_load := loader_load node_host;
  resetSettings := fun details =>
    (reset_err, JBool (if reset_err is Some _ then false else true));
  resetThemeSettings := resetThemeSettings node_host;
  initPlugin := initPlugin node_host;
  settings_set := settings_set node_host
|}.

End Host.
Export Host.

(** ** Observing a trace *)

Module Obs.

Definition calls (p : event -> bool) (t : list event) : nat :=
  length (List.filter p t).

Definition is_callback (e : event) : bool :=
  match e with ECallback _ => true | _ => false end.

Definition is_serve404 (e : event) : bool :=
  match e with EServe404 => true | _ => false end.

Definition is_resetSettings (e : event) : bool :=
  match e with EResetSettings _ => true | _ => false end.

Definition is_resetThemeSettings (e : event) : bool :=
  match e with EResetThemeSettings _ => true | _ => false end.

Definition is_job_call (e : event) : bool :=
  match e with
  | ENewJob _ _ | EJobInit _ _ | ESetRunAsInitiator _ _ | EJobRun _ => true
  | _ => false
  end.

(** A call the five handlers make, as opposed to the reply of [render]
    itself. *)
Definition is_handler_call (e : event) : bool :=
  match e with
  | ECallback _ => false
  | _ => true
  end.

(** The messages an error contributes to a failure envelope, in the
    words of the spec: the primary message, then the message of each
    sub-error in order. *)
Definition aggregated_messages (e : js_error) : list string :=
  message e ::
  match validationErrors e with
  | Some ves => map vf_message ves
  | None => []
  end.

(** The keys of VALID_ACTIONS. *)
Definition action_names : list string :=
  [ "install"; "uninstall"; "reset_settings"; "initialize"; "set_theme" ].

End Obs.
Export Obs.

(** ** Shapes of a run *)

Module Shape.

(** A computation that calls no collaborator. *)
Definition silent {A : Type} (m : M A) : Prop := trace m = [].

Definition is_lookup (e : event) : bool :=
  match e with EGetPluginBySite _ => true | _ => false end.

(** The events that end a request: the reply and the 404. *)
Definition is_terminal (e : event) : bool :=
  is_callback e || is_serve404 e.

Definition status_eqb (a b : api_status) : bool :=
  match a, b with
  | API_SUCCESS, API_SUCCESS | API_FAILURE, API_FAILURE => true
  | _, _ => false
  end.

Definition code_eqb (a b : option Z) : bool :=
  match a, b with
  | Some x, Some y => (x =? y)%Z
  | None, None => true
  | _, _ => false
  end.

(** Whether the status and code of a reply are one of the allowed
    pairs. *)
Definition reply_in (allowed : list (api_status * option Z))
    (r : response) : bool :=
  existsb (fun p => status_eqb (status (content r)) (fst p)
                    && code_eqb (code r) (snd p)) allowed.

(** A trace that ends a request properly: no reply and no 404 is
    followed by anything, and a reply has an allowed status and code. *)
Fixpoint well_ended (allowed : list (api_status * option Z))
    (t : list event) : bool :=
  match t with
  | [] => true
  | [e] =>
      match e with
      | ECallback r => reply_in allowed r
      | _ => true
      end
  | e :: t' => negb (is_terminal e) && well_ended allowed t'
  end.

(** The status and code of the replies of each handler. *)
Definition render_replies : list (api_status * option Z) :=
  [ (API_FAILURE, Some 400) ].

Definition job_replies : list (api_status * option Z) :=
  [ (API_SUCCESS, None) ].

Definition reset_settings_replies : list (api_status * option Z) :=
  [ (API_SUCCESS, None); (API_FAILURE, Some 400) ].

Definition initialize_replies : list (api_status * option Z) :=
  [ (API_SUCCESS, Some 200); (API_FAILURE, Some 400);
    (API_FAILURE, Some 500) ].

Definition set_theme_replies : list (api_status * option Z) :=
  [ (API_SUCCESS, Some 200); (API_FAILURE, Some 500) ].

Definition all_replies : list (api_status * option Z) :=
  render_replies ++ job_replies ++ reset_settings_replies
  ++ initialize_replies ++ set_theme_replies.

(** The host binds PluginDetailsLoader to an object with a callable
    [load]. *)
Definition binds_loader (w : world) : Prop :=
  exists o f,
    globals w "PluginDetailsLoader" = Some o /\
    get_prop o "load" = ret (JFun f).

(** The reply to a reset_settings request that ended with [err]. *)
Definition reset_settings_reply (w : world) (uid : js_value)
    (err : option js_error) : response :=
  match err with
  | Some e =>
      {| content :=
           {| status := API_FAILURE;
              env_message :=
                format w (ls_g w "generic.RESET_SETTINGS_FAILED") uid;
              data := Some (JArr (map JStr (aggregated_messages e))) |};
         code := Some 400 |}
  | None =>
      {| content :=
           {| status := API_SUCCESS;
              env_message :=
                format w (ls_g w "generic.RESET_SETTINGS_SUCCESS") uid;
              data := None |};
         code := None |}
  end.

(** Details with theme settings. *)
Definition themed_details : js_value :=
  JObj (<["uid" := JStr "sample"]>
       (<["theme" := JObj (<["settings" := JArr [JStr "color"]]> ∅)]> ∅)).

(** A host that binds the three identifiers, with a loader that gives
    [loaded] and reset operations that call back with [reset_err] and
    [theme_err]. *)
Definition loader_host (loaded : js_value)
    (reset_err theme_err : option js_error) : world := {|
  globals := globals (ambient_host JUndefined None);
  isNonEmptyStr := isNonEmptyStr node_host;
  ls_g := ls_g node_host;
  format := format node_host;
  DEFAULT_THEME := DEFAULT_THEME node_host;
  createName := createName node_host;
  getId := getId node_host;
  getPluginBySite := getPluginBySite node_host;
  loader_load := fun _ => loaded;
  resetSettings := fun _ =>
    (reset_err, JBool (if reset_err is Some _ then false else true));
  resetThemeSettings := fun _ =>
    (theme_err, JBool (if theme_err is Some _ then false else true));
  initPlugin := initPlugin node_host;
  settings_set := settings_set node_host
|}.

End Shape.
Export Shape.

(** ** Laws of the effect monad *)

Section MonadLaws.

Context {A B C : Type}.

Lemma bind_ret_l (a : A) (f : A -> M B) : bind (ret a) f = f a.
Proof. unfold bind, ret. destruct (f a) as [t r]. reflexivity. Qed.

Lemma bind_ret_r (m : M A) : bind m ret = m.
Proof.
  destruct m as [t [a|e]]; unfold bind, ret; simpl; [|reflexivity].
  rewrite app_nil_r. reflexivity.
Qed.

Lemma bind_throw (e : js_exn) (f : A -> M B) : bind (throw e) f = throw e.
Proof. reflexivity. Qed.

Lemma bind_assoc (m : M A) (f : A -> M B) (g : B -> M C) :
  bind (bind m f) g = bind m (fun a => bind (f a) g).
Proof.
  destruct m as [t [a|e]]; unfold bind; simpl; [|reflexivity].
  destruct (f a) as [t1 [b|e1]]; simpl; [|reflexivity].
  destruct (g b) as [t2 r2]. rewrite app_assoc. reflexivity.
Qed.

Lemma bind_emit (e : event) (t : list event) (r : completion B) :
  bind (emit e) (fun _ => (t, r)) = (e :: t, r).
Proof. reflexivity. Qed.

End MonadLaws.

(** ** The series *)

Section Series.

Context {S R : Type}.
Implicit Types (tasks pre rest : list (task S)) (t : task S).
Implicit Types (final : option js_error -> list js_value -> M R).

(** A series is its run up to the end, then [final]. *)
Lemma series_factor tasks s results final :
  series tasks s results final =
  bind (series tasks s results (fun err rs => ret (err, rs)))
       (fun p => final (fst p) (snd p)).
Proof.
  revert s results.
  induction tasks as [|t tasks IH]; intros s results; cbn [series].
  - rewrite bind_ret_l. reflexivity.
  - rewrite bind_assoc.
    destruct (t s) as [tr [[s' [[e|] res]]|x]]; try reflexivity.
    + cbn [bind]. rewrite bind_ret_l. reflexivity.
    + cbn [bind]. rewrite IH. reflexivity.
Qed.

(** The tasks after one that fails are not run: the series does not
    depend on them. *)
Lemma series_stops_at_first_error pre t rest s results final :
  fails t ->
  series (pre ++ t :: rest) s results final =
  series (pre ++ [t]) s results final.
Proof.
  intros Hf. revert s results.
  induction pre as [|p pre IH]; intros s results; simpl.
  - destruct (Hf s) as (tr & s' & e & res & ->). reflexivity.
  - destruct (p s) as [tr [[s' [[e|] res]]|x]]; simpl; try reflexivity.
    rewrite IH. reflexivity.
Qed.

End Series.

(** ** reset_settings *)

Section ResetSettings.

Variable w : world.
Variable uid : js_value.

(** The Load step with no plugin: one lookup, then the not-found error. *)
Lemma load_plugin_missing details :
  truthy (snd (getPluginBySite w uid)) = false ->
  load_plugin w uid details =
  ([EGetPluginBySite uid],
   Normal (details,
           (Some (new_Error
                    (format w (ls_g w "generic.PLUGIN_NOT_FOUND") uid)),
            JBool false))).
Proof.
  intros H. unfold load_plugin.
  destruct (getPluginBySite w uid) as [err plugin]. simpl in H.
  rewrite H. reflexivity.
Qed.

Lemma load_plugin_missing_fails :
  truthy (snd (getPluginBySite w uid)) = false ->
  fails (load_plugin w uid).
Proof.
  intros H s. rewrite (load_plugin_missing s H). eauto.
Qed.

(** A truthy value has properties to read. *)
Lemma get_prop_truthy (v : js_value) (k : string) :
  truthy v = true -> exists x, get_prop v k = ret x.
Proof. destruct v; simpl; intros H; try discriminate; eauto. Qed.

(** The Load step with a plugin, on a host that does not bind
    PluginDetailsLoader. *)
Lemma load_plugin_found_throws details :
  globals w "PluginDetailsLoader" = None ->
  truthy (snd (getPluginBySite w uid)) = true ->
  load_plugin w uid details =
  ([EGetPluginBySite uid], Throw (ReferenceError "PluginDetailsLoader")).
Proof.
  intros Hg H. unfold load_plugin.
  destruct (getPluginBySite w uid) as [err plugin]. simpl in H.
  rewrite H. cbn [negb].
  destruct (get_prop_truthy plugin "dirName" H) as [x ->].
  unfold read_global. rewrite Hg. reflexivity.
Qed.

(** What the completion callback answers. *)
Lemma reset_settings_done_error (e : js_error) (results : list js_value) :
  reset_settings_done w uid respond (Some e) results =
  ([ECallback
      {| content :=
           apiResponse API_FAILURE
             (format w (ls_g w "generic.RESET_SETTINGS_FAILED") uid)
             (Some (JArr (map JStr (aggregated_messages e))));
         code := Some 400 |}],
   Normal tt).
Proof.
  unfold reset_settings_done, aggregated_messages, respond, call, emit.
  destruct (validationErrors e) as [ves|]; [|reflexivity].
  replace (fold_left (fun d ve => d ++ [vf_message ve]) ves [message e])
    with (message e :: map vf_message ves); [reflexivity|].
  change (message e :: map vf_message ves)
    with ([message e] ++ map vf_message ves).
  generalize [message e] as acc.
  induction ves as [|ve ves IH]; intros acc; simpl.
  - rewrite app_nil_r. reflexivity.
  - rewrite <- IH. rewrite <- app_assoc. reflexivity.
Qed.

Lemma reset_settings_done_ok (results : list js_value) :
  reset_settings_done w uid respond None results =
  ([ECallback
      {| content :=
           apiResponse API_SUCCESS
             (format w (ls_g w "generic.RESET_SETTINGS_SUCCESS") uid) None;
         code := None |}],
   Normal tt).
Proof. reflexivity. Qed.

End ResetSettings.

Section ResetSettingsClaims.

Variable w : world.
Variable uid : js_value.

(** C4. In the reset_settings pipeline, whenever the Load step fails
    (the lookup gives no plugin), the settings-reset step and the
    theme-settings-reset step are never invoked: both call counts are
    0, the run consists of the lookup and the failure reply, and it is
    the same run whatever steps follow Load, since a failing step
    prevents the execution of all later steps. *)
Theorem reset_settings_load_failure_skips_later_steps :
  truthy (snd (getPluginBySite w uid)) = false ->
  calls is_resetSettings (trace (reset_settings w uid respond)) = 0%nat /\
  calls is_resetThemeSettings (trace (reset_settings w uid respond)) = 0%nat /\
  reset_settings w uid respond =
    ([EGetPluginBySite uid;
      ECallback
        {| content :=
             apiResponse API_FAILURE
               (format w (ls_g w "generic.RESET_SETTINGS_FAILED") uid)
               (Some (JArr [JStr (format w (ls_g w "generic.PLUGIN_NOT_FOUND")
                                    uid)]));
           code := Some 400 |}],
     Normal tt) /\
  forall later : list (task js_value),
    series (load_plugin w uid :: later) JNull []
      (reset_settings_done w uid respond) =
    reset_settings w uid respond.
Proof.
  intros H.
  assert (Hrun : forall later : list (task js_value),
    series (load_plugin w uid :: later) JNull []
      (reset_settings_done w uid respond) =
    ([EGetPluginBySite uid;
      ECallback
        {| content :=
             apiResponse API_FAILURE
               (format w (ls_g w "generic.RESET_SETTINGS_FAILED") uid)
               (Some (JArr [JStr (format w (ls_g w "generic.PLUGIN_NOT_FOUND")
                                    uid)]));
           code := Some 400 |}],
     Normal tt)).
  { intros later. cbn [series].
    rewrite (load_plugin_missing w uid JNull H). reflexivity. }
  unfold reset_settings, reset_settings_tasks.
  rewrite !Hrun. repeat split; try reflexivity.
  intros later. apply Hrun.
Qed.

(** C7. When the reset_settings pipeline ends with an error, the reply
    is a Failure envelope with status 400 whose data is the error's
    message followed by the messages of its validationErrors, in
    order; when it ends without error, the reply is a Success
    envelope with the formatted success message and no data. *)
Theorem reset_settings_reply_aggregates_errors tr err results :
  series_end (reset_settings_tasks w uid) JNull =
    (tr, Normal (err, results)) ->
  reset_settings w uid respond =
    (tr ++
     [ECallback
        match err with
        | Some e =>
            {| content :=
                 {| status := API_FAILURE;
                    env_message :=
                      format w (ls_g w "generic.RESET_SETTINGS_FAILED") uid;
                    data := Some (JArr (map JStr (aggregated_messages e))) |};
               code := Some 400 |}
        | None =>
            {| content :=
                 {| status := API_SUCCESS;
                    env_message :=
                      format w (ls_g w "generic.RESET_SETTINGS_SUCCESS") uid;
                    data := None |};
               code := None |}
        end],
     Normal tt).
Proof.
  intros H. unfold reset_settings. rewrite series_factor.
  unfold series_end in H. rewrite H. cbn [bind fst snd].
  destruct err as [e|].
  - rewrite reset_settings_done_error. reflexivity.
  - rewrite reset_settings_done_ok. reflexivity.
Qed.

(** C10. PluginDetailsLoader is bound neither in reset_settings nor in
    the module scope, so on a host whose global object does not bind
    it either, a lookup that returns a plugin makes the Load step
    raise a ReferenceError: Load never calls back, and the
    settings-reset and theme-settings-reset steps are not reached. *)
Theorem reset_settings_existing_plugin_never_loads :
  globals w "PluginDetailsLoader" = None ->
  truthy (snd (getPluginBySite w uid)) = true ->
  declared reset_settings_locals "PluginDetailsLoader" = false /\
  (forall details,
      load_plugin w uid details =
      ([EGetPluginBySite uid],
       Throw (ReferenceError "PluginDetailsLoader"))) /\
  reset_settings w uid respond =
    ([EGetPluginBySite uid], Throw (ReferenceError "PluginDetailsLoader")) /\
  calls is_resetSettings (trace (reset_settings w uid respond)) = 0%nat /\
  calls is_resetThemeSettings (trace (reset_settings w uid respond)) = 0%nat.
Proof.
  intros Hg H.
  assert (Hrun : reset_settings w uid respond =
    ([EGetPluginBySite uid], Throw (ReferenceError "PluginDetailsLoader"))).
  { unfold reset_settings, reset_settings_tasks. cbn [series].
    rewrite (load_plugin_found_throws w uid JNull Hg H). reflexivity. }
  rewrite Hrun. repeat split; try reflexivity.
  intros details. apply load_plugin_found_throws; assumption.
Qed.

End ResetSettingsClaims.

Lemma reset_settings_load_failure_skips_later_steps_witness :
  calls is_resetSettings
    (trace (reset_settings node_host (JStr "missing-plugin") respond)) = 0%nat.
Proof.
  apply (reset_settings_load_failure_skips_later_steps
           node_host (JStr "missing-plugin")).
  reflexivity.
Defined.

Lemma reset_settings_reply_aggregates_errors_witness :
  reset_settings (ambient_host JUndefined (Some invalid_settings))
    (JStr "sample") respond =
    ([EGetPluginBySite (JStr "sample");
      EResetSettings (loader_load node_host (JStr "sample"))] ++
     [ECallback
        {| content :=
             {| status := API_FAILURE;
                env_message := "generic.RESET_SETTINGS_FAILED:sample";
                data := Some (JArr [JStr "settings are invalid";
                                    JStr "name is required";
                                    JStr "value is required"]) |};
           code := Some 400 |}],
     Normal tt).
Proof.
  apply (reset_settings_reply_aggregates_errors
           (ambient_host JUndefined (Some invalid_settings)) (JStr "sample")
           [EGetPluginBySite (JStr "sample");
            EResetSettings (loader_load node_host (JStr "sample"))]
           (Some invalid_settings)
           [JBool true; JBool false]).
  vm_compute. reflexivity.
Defined.

Lemma reset_settings_existing_plugin_never_loads_witness :
  reset_settings node_host (JStr "sample") respond =
    ([EGetPluginBySite (JStr "sample")],
     Throw (ReferenceError "PluginDetailsLoader")).
Proof.
  apply (reset_settings_existing_plugin_never_loads
           node_host (JStr "sample")); reflexivity.
Defined.

(** ** initialize and set_theme *)

Section Initialize.

Variable w : world.
Variable uid : js_value.

(** C8. For every initialize request: a lookup error gives a Failure
    envelope with status 500 and data [err.message]; otherwise the
    plugin initializer is invoked, and its error gives a Failure
    envelope with status 400, its success a Success envelope with
    status 200; the callback is called exactly once. *)
Theorem initialize_replies_once :
  initialize w uid respond =
    match getPluginBySite w uid with
    | (Some e, _) =>
        ([EGetPluginBySite uid;
          ECallback
            {| content :=
                 {| status := API_FAILURE;
                    env_message :=
                      format w (ls_g w "generic.INITIALIZATION_FAILED") uid;
                    data := Some (JArr [JStr (message e)]) |};
               code := Some 500 |}],
         Normal tt)
    | (None, plugin) =>
        ([EGetPluginBySite uid;
          EInitPlugin plugin;
          ECallback
            match initPlugin w plugin with
            | Some e =>
                {| content :=
                     {| status := API_FAILURE;
                        env_message :=
                          format w (ls_g w "generic.INITIALIZATION_FAILED")
                            uid;
                        data := Some (JArr [JStr (message e)]) |};
                   code := Some 400 |}
            | None =>
                {| content :=
                     {| status := API_SUCCESS;
                        env_message :=
                          format w (ls_g w "generic.INITIALIZATION_SUCCESS")
                            uid;
                        data := None |};
                   code := Some 200 |}
            end],
         Normal tt)
    end /\
  calls is_callback (trace (initialize w uid respond)) = 1%nat.
Proof.
  unfold initialize.
  destruct (getPluginBySite w uid) as [[e|] plugin].
  - split; reflexivity.
  - destruct (initPlugin w plugin) as [e|]; split; reflexivity.
Qed.

End Initialize.

Section SetTheme.

Variable w : world.

Lemma strict_ne_str_refl (s : string) : strict_ne_str (JStr s) s = false.
Proof. simpl. rewrite String.eqb_refl. reflexivity. Qed.

(** C3. With the default theme as identifier, whatever the lookup
    gives (an error, no plugin), set_theme neither replies with the
    lookup failure nor serves the 404: it persists a theme, which is
    the requested identifier itself when no plugin came back, and
    replies with a Success envelope and status 200 when the
    persistence succeeds. *)
Theorem set_theme_default_always_applies :
  let uid := JStr (DEFAULT_THEME w) in
  exists theme,
    (truthy (snd (getPluginBySite w uid)) = false -> theme = uid) /\
    (truthy (snd (getPluginBySite w uid)) = true ->
     get_prop (snd (getPluginBySite w uid)) "uid" = ret theme) /\
    set_theme w uid respond =
      ([EGetPluginBySite uid;
        ESettingsSet "active_theme" theme;
        ECallback
          match settings_set w "active_theme" theme with
          | Some e =>
              {| content :=
                   {| status := API_FAILURE;
                      env_message :=
                        format w (ls_g w "generic.SET_THEME_FAILED") uid;
                      data := Some (JArr [JStr (message e)]) |};
                 code := Some 500 |}
          | None =>
              {| content :=
                   {| status := API_SUCCESS;
                      env_message :=
                        format w (ls_g w "generic.SET_THEME_SUCCESS") uid;
                      data := None |};
                 code := Some 200 |}
          end],
       Normal tt) /\
    calls is_serve404 (trace (set_theme w uid respond)) = 0%nat.
Proof.
  intros uid. unfold set_theme.
  assert (Hd : strict_ne_str uid (DEFAULT_THEME w) = false)
    by apply strict_ne_str_refl.
  rewrite Hd.
  destruct (getPluginBySite w uid) as [err plugin]. cbn [snd].
  destruct (truthy plugin) eqn:Hp.
  - destruct (get_prop_truthy plugin "uid" Hp) as [theme Ht].
    exists theme. rewrite Ht.
    split; [discriminate|]. split; [reflexivity|].
    destruct err; cbn;
      destruct (settings_set w "active_theme" theme); split; reflexivity.
  - exists uid. split; [reflexivity|]. split; [discriminate|].
    destruct err; cbn;
      destruct (settings_set w "active_theme" uid); split; reflexivity.
Qed.

(** C6. With any other identifier: a lookup error gives a Failure
    envelope with status 500; a lookup without error that gives no
    plugin, or a plugin whose theme is not an object, serves the 404
    and calls back with no envelope at all. *)
Theorem set_theme_other_lookup_failures (uid : js_value) :
  strict_ne_str uid (DEFAULT_THEME w) = true ->
  match getPluginBySite w uid with
  | (Some e, _) =>
      set_theme w uid respond =
        ([EGetPluginBySite uid;
          ECallback
            {| content :=
                 {| status := API_FAILURE;
                    env_message :=
                      format w (ls_g w "generic.SET_THEME_FAILED") uid;
                    data := Some (JArr [JStr (message e)]) |};
               code := Some 500 |}],
         Normal tt)
  | (None, plugin) =>
      truthy plugin = false \/
      (exists theme,
          get_prop plugin "theme" = ret theme /\ isObject theme = false) ->
      set_theme w uid respond = ([EGetPluginBySite uid; EServe404], Normal tt)
      /\ calls is_callback (trace (set_theme w uid respond)) = 0%nat
  end.
Proof.
  intros Hne. unfold set_theme. rewrite Hne.
  destruct (getPluginBySite w uid) as [[e|] plugin]; [reflexivity|].
  cbn [negb].
  intros [Hp | (theme & Ht & Ho)].
  - rewrite Hp. split; reflexivity.
  - destruct (truthy plugin); [|split; reflexivity].
    cbn [negb]. rewrite Ht, bind_ret_l, Ho. split; reflexivity.
Qed.

End SetTheme.

Lemma set_theme_other_lookup_failures_witness :
  (set_theme node_host (JStr "plain") respond =
     ([EGetPluginBySite (JStr "plain"); EServe404], Normal tt) /\
   calls is_callback (trace (set_theme node_host (JStr "plain") respond))
     = 0%nat) /\
  set_theme node_host (JStr "broken") respond =
    ([EGetPluginBySite (JStr "broken");
      ECallback
        {| content :=
             {| status := API_FAILURE;
                env_message := "generic.SET_THEME_FAILED:broken";
                data := Some (JArr [JStr "lookup failed"]) |};
           code := Some 500 |}],
     Normal tt).
Proof.
  split.
  - apply (set_theme_other_lookup_failures node_host (JStr "plain")).
    + reflexivity.
    + right. exists JUndefined. split; reflexivity.
  - apply (set_theme_other_lookup_failures node_host (JStr "broken")).
    reflexivity.
Defined.

(** ** Validation and routing *)

(** Case analysis on a name taken from an explicit list of names. *)
Tactic Notation "each_name" hyp(H) tactic3(tac) :=
  repeat (destruct H as [<-|H]; [tac|]); destruct H.

Section Render.

Variable w : world.
Implicit Types (action identifier : option string).

Lemma valid_action_own (s : string) :
  In s action_names -> valid_action (Some s) = JBool true.
Proof.
  intros H. each_name H reflexivity.
Qed.

(** The lookup misses for a name that is neither a key of the table
    nor a member of Object.prototype. *)
Lemma valid_action_miss (s : string) :
  ~ In s action_names ->
  Object_prototype_get s = JUndefined ->
  valid_action (Some s) = JUndefined.
Proof.
  intros Hn Hp. unfold valid_action, get_own_or_inherited, VALID_ACTIONS.
  cbn [path_key].
  rewrite !lookup_insert_ne, lookup_empty; [exact Hp|..];
    intros <-; apply Hn; unfold action_names; simpl; tauto.
Qed.

(** No member of Object.prototype has the name of an action. *)
Lemma inherited_method_is_no_action (s : string) :
  In s Object_prototype_methods -> ~ In s action_names.
Proof.
  intros Hm Ha.
  each_name Hm (simpl in Ha; intuition discriminate).
Qed.

Lemma valid_action_unset : valid_action None = JUndefined.
Proof. reflexivity. Qed.

Lemma Object_prototype_get_defined (s : string) :
  Object_prototype_get s <> JUndefined ->
  s = "__proto__" \/ In s Object_prototype_methods.
Proof.
  unfold Object_prototype_get.
  destruct (String.eqb_spec s "__proto__") as [->|Hne]; [tauto|].
  intros H. right.
  destruct (Object_prototype !! s) as [v|] eqn:E; [|congruence].
  unfold Object_prototype in E.
  apply elem_of_list_to_map_2 in E.
  apply list_elem_of_In in E. apply in_map_iff in E.
  destruct E as (k & [= <- _] & Hk). exact Hk.
Qed.

(** The lookup hits for the five actions and for the members of
    Object.prototype, and for no other name. *)
Lemma valid_action_defined (s : string) :
  valid_action (Some s) <> JUndefined ->
  In s action_names \/ s = "__proto__" \/ In s Object_prototype_methods.
Proof.
  unfold valid_action, get_own_or_inherited. cbn [path_key].
  destruct (VALID_ACTIONS !! s) as [v|] eqn:E.
  - intros _. left. unfold VALID_ACTIONS in E.
    repeat (rewrite lookup_insert in E; case_decide; [subst; simpl; tauto|]).
    rewrite lookup_empty in E. discriminate.
  - intros H. right. apply Object_prototype_get_defined. exact H.
Qed.

(** Every value the lookup can give, other than undefined, is truthy. *)
Lemma valid_action_truthy action :
  valid_action action <> JUndefined -> truthy (valid_action action) = true.
Proof.
  destruct action as [s|]; [|intros H; contradiction H; reflexivity].
  intros H. destruct (valid_action_defined s H) as [Ha|[->|Hm]].
  - rewrite (valid_action_own s Ha). reflexivity.
  - reflexivity.
  - each_name Hm reflexivity.
Qed.

(** A request passes validation only with a name the lookup hits and
    with an identifier that is a non-empty string. *)
Lemma validated_request action identifier :
  validate w action identifier = [] ->
  (In (path_key action) action_names \/
   path_key action = "__proto__" \/
   In (path_key action) Object_prototype_methods) /\
  action = Some (path_key action) /\
  isNonEmptyStr w action = true /\
  isNonEmptyStr w identifier = true.
Proof.
  unfold validate. intros H.
  destruct (is_undefined (valid_action action)) eqn:Hu.
  { rewrite orb_true_r in H.
    destruct (truthy (valid_action action) && negb (isNonEmptyStr w identifier));
      discriminate H. }
  destruct (isNonEmptyStr w action) eqn:Ha; cbn [negb orb app] in H.
  2: { destruct (truthy (valid_action action)
                 && negb (isNonEmptyStr w identifier)); discriminate H. }
  assert (Hd : valid_action action <> JUndefined)
    by (intros E; rewrite E in Hu; discriminate Hu).
  rewrite (valid_action_truthy action Hd) in H. cbn [andb] in H.
  destruct (isNonEmptyStr w identifier) eqn:Hi; [|discriminate H].
  destruct action as [s|]; [|contradiction Hd; reflexivity].
  cbn [path_key]. repeat split.
  apply valid_action_defined. exact Hd.
Qed.

(** One of the five actions with an identifier goes to its handler. *)
Lemma render_routes_action (s : string) identifier cb :
  In s action_names ->
  isNonEmptyStr w (Some s) = true ->
  isNonEmptyStr w identifier = true ->
  render w (Some s) identifier cb =
  this_member w s (path_value identifier) cb.
Proof.
  intros Hin Hs Hi. unfold render, validate.
  rewrite Hs, Hi, (valid_action_own s Hin). reflexivity.
Qed.

(** Any error makes [render] reply with the 400 failure envelope that
    holds the messages; no handler is called. *)
Lemma render_rejects_invalid_request action identifier :
  validate w action identifier <> [] ->
  render w action identifier respond =
    ([ECallback
        {| content :=
             {| status := API_FAILURE;
                env_message := "";
                data :=
                  Some (JArr (map JStr (validate w action identifier))) |};
           code := Some 400 |}],
     Normal tt) /\
  calls is_handler_call (trace (render w action identifier respond)) = 0%nat.
Proof.
  intros H. unfold render.
  destruct (validate w action identifier) as [|m ms]; [congruence|].
  split; reflexivity.
Qed.

(** A lookup miss gives the invalid-action error and nothing else. *)
Lemma lookup_miss_is_invalid_action action identifier :
  valid_action action = JUndefined ->
  validate w action identifier = [ls_g w "generic.VALID_ACTION_REQUIRED"].
Proof.
  intros H. unfold validate. rewrite H. cbn [is_undefined truthy andb].
  rewrite orb_true_r. reflexivity.
Qed.

(** Whenever the lookup is truthy, an identifier that is not a
    non-empty string gives the missing-identifier error. *)
Lemma missing_identifier_reported action identifier :
  truthy (valid_action action) = true ->
  isNonEmptyStr w identifier = false ->
  In (ls_g w "generic.VALID_IDENTIFIER_REQUIRED")
     (validate w action identifier) /\
  exists errors,
    In (ls_g w "generic.VALID_IDENTIFIER_REQUIRED") errors /\
    render w action identifier respond =
      ([ECallback
          {| content :=
               {| status := API_FAILURE;
                  env_message := "";
                  data := Some (JArr (map JStr errors)) |};
             code := Some 400 |}],
       Normal tt).
Proof.
  intros Ht Hi.
  assert (Hin : In (ls_g w "generic.VALID_IDENTIFIER_REQUIRED")
                   (validate w action identifier)).
  { unfold validate. rewrite Ht, Hi. cbn [negb andb].
    apply in_or_app. right. left. reflexivity. }
  split; [exact Hin|].
  exists (validate w action identifier). split; [exact Hin|].
  apply render_rejects_invalid_request.
  intros E. rewrite E in Hin. destruct Hin.
Qed.

(** A request that passes validation goes to the member of the
    controller named by the action. *)
Lemma render_routes_valid_request action identifier cb :
  validate w action identifier = [] ->
  render w action identifier cb =
  this_member w (path_key action) (path_value identifier) cb.
Proof. intros H. unfold render. rewrite H. reflexivity. Qed.

(** C2. The name of a method that VALID_ACTIONS inherits from
    Object.prototype is not one of the five actions, yet with an
    identifier it passes validation: no error is collected, [render]
    calls the inherited member of the controller and replies with no
    envelope. *)
Theorem render_accepts_inherited_method_name (name id : string) :
  In name Object_prototype_methods ->
  isNonEmptyStr w (Some name) = true ->
  isNonEmptyStr w (Some id) = true ->
  ~ In name action_names /\
  validate w (Some name) (Some id) = [] /\
  render w (Some name) (Some id) respond =
    ([EInheritedMember name (JStr id)], Normal tt) /\
  calls is_callback (trace (render w (Some name) (Some id) respond)) = 0%nat.
Proof.
  intros Hin Hn Hi.
  assert (Hv : validate w (Some name) (Some id) = []).
  { unfold validate. rewrite Hn, Hi. each_name Hin reflexivity. }
  assert (Hr : render w (Some name) (Some id) respond =
               ([EInheritedMember name (JStr id)], Normal tt)).
  { rewrite render_routes_valid_request by exact Hv.
    each_name Hin reflexivity. }
  rewrite Hr. repeat split; try assumption.
  apply inherited_method_is_no_action. exact Hin.
Qed.

(** C9. For the name of a method that VALID_ACTIONS inherits from
    Object.prototype, which is not one of the five actions, the lookup
    is truthy: an identifier that is not a non-empty string gives the
    missing-identifier error, and it is the only error. *)
Theorem missing_identifier_fires_for_inherited_method_name
    (name : string) identifier :
  In name Object_prototype_methods ->
  isNonEmptyStr w (Some name) = true ->
  isNonEmptyStr w identifier = false ->
  ~ In name action_names /\
  validate w (Some name) identifier =
    [ls_g w "generic.VALID_IDENTIFIER_REQUIRED"] /\
  render w (Some name) identifier respond =
    ([ECallback
        {| content :=
             {| status := API_FAILURE;
                env_message := "";
                data :=
                  Some (JArr [JStr (ls_g w "generic.VALID_IDENTIFIER_REQUIRED")])
             |};
           code := Some 400 |}],
     Normal tt).
Proof.
  intros Hin Hn Hi.
  assert (Hv : validate w (Some name) identifier =
               [ls_g w "generic.VALID_IDENTIFIER_REQUIRED"]).
  { unfold validate. rewrite Hn, Hi. each_name Hin reflexivity. }
  split; [|split; [exact Hv|]].
  - apply inherited_method_is_no_action. exact Hin.
  - unfold render. rewrite Hv. reflexivity.
Qed.

End Render.

Lemma render_accepts_inherited_method_name_witness :
  render node_host (Some "toString") (Some "plugin-x") respond =
    ([EInheritedMember "toString" (JStr "plugin-x")], Normal tt).
Proof.
  apply (render_accepts_inherited_method_name
           node_host "toString" "plugin-x");
    [right; left; reflexivity | reflexivity | reflexivity].
Defined.

Lemma missing_identifier_fires_for_inherited_method_name_witness :
  validate node_host (Some "toString") (Some "") =
    ["generic.VALID_IDENTIFIER_REQUIRED"].
Proof.
  apply (missing_identifier_fires_for_inherited_method_name
           node_host "toString" (Some ""));
    [right; left; reflexivity | reflexivity | reflexivity].
Defined.

(** ** install and uninstall *)

Section Jobs.

Variable w : world.
Variable uid : js_value.

(** On a host whose global object binds [name], install runs to its
    end: the job is created and run as initiator and the reply holds
    its id. *)
Lemma install_on_host_binding_name (v : js_value) :
  globals w "name" = Some v ->
  let ctx := {| ctx_name := createName w InstallJob uid;
                pluginUid := uid;
                initiator := true |} in
  install w uid respond =
    ([ENewJob InstallJob ctx;
      EJobInit InstallJob v;
      ESetRunAsInitiator InstallJob true;
      EJobRun InstallJob;
      ECallback
        {| content :=
             {| status := API_SUCCESS;
                env_message := "";
                data := Some (getId w InstallJob ctx) |};
           code := None |}],
     Normal tt).
Proof.
  intros Hg ctx. unfold install, read_global. rewrite Hg. reflexivity.
Qed.

(** C1. [name] is bound neither in install nor in the module scope.
    On a host whose global object does not bind it either, install
    creates the job with [initiator: true] and then raises a
    ReferenceError at [job.init(name)]: the job is not initialised,
    not marked, not run, and the callback is not called. *)
Theorem install_stops_at_unbound_name (cb : callback) :
  globals w "name" = None ->
  declared install_locals "name" = false /\
  install w uid cb =
    ([ENewJob InstallJob
        {| ctx_name := createName w InstallJob uid;
           pluginUid := uid;
           initiator := true |}],
     Throw (ReferenceError "name")).
Proof.
  intros Hg. split; [reflexivity|].
  unfold install, read_global. rewrite Hg. reflexivity.
Qed.

(** On a host whose global object binds [options] to an object,
    uninstall runs to its end, and the job is created and marked as
    initiator exactly when [options.forCluster] is not [false]. *)
Lemma uninstall_on_host_binding_options (o flag : js_value) :
  globals w "options" = Some o ->
  get_prop o "forCluster" = ret flag ->
  let ctx := {| ctx_name := createName w UninstallJob uid;
                pluginUid := uid;
                initiator := strict_ne_false flag |} in
  uninstall w uid respond =
    ([ENewJob UninstallJob ctx;
      EJobInit UninstallJob (JStr (createName w UninstallJob uid));
      ESetRunAsInitiator UninstallJob (strict_ne_false flag);
      EJobRun UninstallJob;
      ECallback
        {| content :=
             {| status := API_SUCCESS;
                env_message := "";
                data := Some (getId w UninstallJob ctx) |};
           code := None |}],
     Normal tt).
Proof.
  intros Hg Hf ctx. unfold uninstall, read_global.
  rewrite Hg, bind_ret_l, Hf, bind_ret_l. cbn.
  rewrite Hf. reflexivity.
Qed.

(** C5. [options] is bound neither in uninstall nor in the module
    scope. On a host whose global object does not bind it either,
    uninstall raises a ReferenceError while it builds the job context:
    no flag is read, no job is created, and the callback is not
    called. *)
Theorem uninstall_stops_at_unbound_options (cb : callback) :
  globals w "options" = None ->
  declared uninstall_locals "options" = false /\
  uninstall w uid cb = ([], Throw (ReferenceError "options")).
Proof.
  intros Hg. split; [reflexivity|].
  unfold uninstall, read_global. rewrite Hg. reflexivity.
Qed.

End Jobs.

Lemma install_stops_at_unbound_name_witness :
  install node_host (JStr "plugin-x") respond =
    ([ENewJob InstallJob
        {| ctx_name := "INSTALL_plugin-x";
           pluginUid := JStr "plugin-x";
           initiator := true |}],
     Throw (ReferenceError "name")).
Proof.
  apply (install_stops_at_unbound_name node_host (JStr "plugin-x") respond).
  reflexivity.
Defined.

Lemma uninstall_stops_at_unbound_options_witness :
  uninstall node_host (JStr "plugin-x") respond =
    ([], Throw (ReferenceError "options")).
Proof.
  apply (uninstall_stops_at_unbound_options
           node_host (JStr "plugin-x") respond).
  reflexivity.
Defined.

Lemma set_theme_default_always_applies_witness :
  set_theme node_host (JStr "pencilblue") respond =
    ([EGetPluginBySite (JStr "pencilblue");
      ESettingsSet "active_theme" (JStr "pencilblue");
      ECallback
        {| content :=
             {| status := API_SUCCESS;
                env_message := "generic.SET_THEME_SUCCESS:pencilblue";
                data := None |};
           code := Some 200 |}],
     Normal tt).
Proof.
  destruct (set_theme_default_always_applies node_host)
    as (theme & Hraw & _ & Hrun & _).
  rewrite (Hraw eq_refl) in Hrun. exact Hrun.
Defined.

(** ** Runs on the sample hosts *)

Example dispatch_unknown_action :
  render node_host (Some "bogus") (Some "plugin-x") respond =
    ([ECallback
        {| content :=
             {| status := API_FAILURE;
                env_message := "";
                data := Some (JArr [JStr "generic.VALID_ACTION_REQUIRED"]) |};
           code := Some 400 |}],
     Normal tt).
Proof. reflexivity. Qed.

Example dispatch_action_not_set :
  validate node_host None None = ["generic.VALID_ACTION_REQUIRED"].
Proof. reflexivity. Qed.

Example dispatch_missing_identifier :
  validate node_host (Some "install") (Some "") =
    ["generic.VALID_IDENTIFIER_REQUIRED"].
Proof. reflexivity. Qed.

Example dispatch_proto_name :
  render node_host (Some "__proto__") (Some "plugin-x") respond =
    ([], Throw (TypeError "__proto__")).
Proof. reflexivity. Qed.

Example dispatch_reset_settings_missing_plugin :
  render node_host (Some "reset_settings") (Some "missing-plugin") respond =
    ([EGetPluginBySite (JStr "missing-plugin");
      ECallback
        {| content :=
             {| status := API_FAILURE;
                env_message := "generic.RESET_SETTINGS_FAILED:missing-plugin";
                data :=
                  Some (JArr [JStr "generic.PLUGIN_NOT_FOUND:missing-plugin"])
             |};
           code := Some 400 |}],
     Normal tt).
Proof. reflexivity. Qed.

Example reset_settings_succeeds_with_ambient_loader :
  reset_settings (ambient_host JUndefined None) (JStr "sample") respond =
    ([EGetPluginBySite (JStr "sample");
      EResetSettings (loader_load node_host (JStr "sample"));
      ECallback
        {| content :=
             {| status := API_SUCCESS;
                env_message := "generic.RESET_SETTINGS_SUCCESS:sample";
                data := None |};
           code := None |}],
     Normal tt).
Proof. vm_compute. reflexivity. Qed.

Example uninstall_with_ambient_flag_false :
  trace (uninstall (ambient_host (JBool false) None) (JStr "sample") respond)
  = [ENewJob UninstallJob
       {| ctx_name := "UNINSTALL_sample";
          pluginUid := JStr "sample";
          initiator := false |};
     EJobInit UninstallJob (JStr "UNINSTALL_sample");
     ESetRunAsInitiator UninstallJob false;
     EJobRun UninstallJob;
     ECallback
       {| content :=
            {| status := API_SUCCESS;
               env_message := "";
               data := Some (JStr "job-UNINSTALL_sample") |};
          code := None |}].
Proof. reflexivity. Qed.

Example dispatch_set_theme_without_theme :
  render node_host (Some "set_theme") (Some "plain") respond =
    ([EGetPluginBySite (JStr "plain"); EServe404], Normal tt).
Proof. reflexivity. Qed.

(** ** Traces of composed computations *)

Section Traces.

Context {A B : Type}.

Lemma trace_bind (m : M A) (f : A -> M B) :
  trace (bind m f) =
  trace m ++ match outcome m with
             | Normal a => trace (f a)
             | Throw _ => []
             end.
Proof.
  destruct m as [t [a|e]]; unfold bind, trace, outcome; cbn [fst snd].
  - destruct (f a). reflexivity.
  - rewrite app_nil_r. reflexivity.
Qed.

Lemma silent_inv (m : M A) : silent m -> m = ([], outcome m).
Proof. destruct m as [t c]. unfold silent, trace, outcome. simpl. congruence. Qed.

Lemma silent_ret (a : A) : silent (ret a).
Proof. reflexivity. Qed.

Lemma silent_throw (e : js_exn) : silent (@throw A e).
Proof. reflexivity. Qed.

Lemma silent_bind (m : M A) (f : A -> M B) :
  silent m -> (forall a, silent (f a)) -> silent (bind m f).
Proof.
  unfold silent. intros Hm Hf. rewrite trace_bind, Hm.
  destruct (outcome m); [apply Hf | reflexivity].
Qed.

End Traces.

Lemma trace_emit_then {B : Type} (e : event) (m : M B) :
  trace (bind (emit e) (fun _ => m)) = e :: trace m.
Proof. rewrite trace_bind. reflexivity. Qed.

Lemma silent_get_prop (v : js_value) (k : string) : silent (get_prop v k).
Proof. destruct v; reflexivity. Qed.

Lemma silent_read_global (w : world) (x : string) : silent (read_global w x).
Proof. unfold read_global. destruct (globals w x); reflexivity. Qed.

Lemma silent_call_load (w : world) (o arg : js_value) :
  silent (call_load w o arg).
Proof.
  unfold call_load. apply silent_bind; [apply silent_get_prop|].
  intros f. destruct f; reflexivity.
Qed.

Lemma calls_app (p : event -> bool) (t1 t2 : list event) :
  calls p (t1 ++ t2) = (calls p t1 + calls p t2)%nat.
Proof. unfold calls. rewrite List.filter_app, length_app. reflexivity. Qed.

Lemma calls_none (p : event -> bool) (t : list event) :
  Forall (fun e => p e = false) t -> calls p t = 0%nat.
Proof.
  unfold calls. induction 1 as [|e t He _ IH]; [reflexivity|].
  simpl. rewrite He. exact IH.
Qed.

(** Calls that are not terminal, then a well-ended trace. *)
Lemma well_ended_app allowed (pre t : list event) :
  Forall (fun e => is_terminal e = false) pre ->
  well_ended allowed t = true ->
  well_ended allowed (pre ++ t) = true.
Proof.
  intros Hpre Ht. induction Hpre as [|e pre He _ IH]; [exact Ht|].
  change ((e :: pre) ++ t) with (e :: (pre ++ t)).
  destruct (pre ++ t) as [|e' t'] eqn:E.
  - destruct e; try reflexivity. discriminate He.
  - cbn [well_ended]. rewrite He. exact IH.
Qed.

Lemma well_ended_quiet allowed (t : list event) :
  Forall (fun e => is_terminal e = false) t -> well_ended allowed t = true.
Proof.
  intros H. rewrite <- (app_nil_r t). apply well_ended_app; [exact H|reflexivity].
Qed.

(** A well-ended trace has at most one terminal event, and it is the
    last one. *)
Lemma well_ended_terminal_last allowed (t : list event) :
  well_ended allowed t = true ->
  (calls is_terminal t <= 1)%nat /\
  forall pre e post,
    t = pre ++ e :: post -> is_terminal e = true -> post = [].
Proof.
  induction t as [|e t IH]; intros H.
  - split; [unfold calls; simpl; lia|].
    intros pre e post E. destruct pre; discriminate E.
  - destruct t as [|e' t'].
    + split.
      * unfold calls. simpl. destruct (is_terminal e); simpl; lia.
      * intros pre x post E _. destruct pre as [|y pre].
        -- injection E as _ E. symmetry. exact E.
        -- injection E as _ E. destruct pre; discriminate E.
    + cbn [well_ended] in H. apply andb_true_iff in H as [He Ht].
      apply negb_true_iff in He.
      destruct (IH Ht) as [Hc Hl]. split.
      * unfold calls in *. cbn [List.filter]. rewrite He. exact Hc.
      * intros pre x post E Hx. destruct pre as [|y pre].
        -- injection E as -> _. congruence.
        -- injection E as _ E. exact (Hl pre x post E Hx).
Qed.

(** Widening the allowed replies. *)
Lemma reply_in_incl allowed allowed' (r : response) :
  incl allowed allowed' ->
  reply_in allowed r = true -> reply_in allowed' r = true.
Proof.
  unfold reply_in. intros Hi H.
  apply existsb_exists in H as (p & Hp & Hr).
  apply existsb_exists. exists p. split; [apply Hi; exact Hp|exact Hr].
Qed.

Lemma well_ended_incl allowed allowed' (t : list event) :
  incl allowed allowed' ->
  well_ended allowed t = true -> well_ended allowed' t = true.
Proof.
  intros Hi. induction t as [|e t IH]; [reflexivity|].
  destruct t as [|e' t'].
  - destruct e; try reflexivity. apply reply_in_incl. exact Hi.
  - cbn [well_ended]. intros H. apply andb_true_iff in H as [He Ht].
    rewrite He. exact (IH Ht).
Qed.

Lemma silent_case {A : Type} (m : M A) :
  silent m -> (exists a, m = ret a) \/ (exists e, m = throw e).
Proof.
  intros H. rewrite (silent_inv m H).
  destruct (outcome m) as [a|e]; [left|right]; eauto.
Qed.

(** Every call of a series is a call of one of its tasks or of its
    completion callback. *)
Lemma series_trace_Forall {S R : Type} (Q : event -> Prop)
    (tasks : list (task S)) (s : S) (results : list js_value)
    (final : option js_error -> list js_value -> M R) :
  (forall t, In t tasks -> forall s, Forall Q (trace (t s))) ->
  (forall err rs, Forall Q (trace (final err rs))) ->
  Forall Q (trace (series tasks s results final)).
Proof.
  intros Ht Hf. revert s results.
  induction tasks as [|t tasks IH]; intros s results; cbn [series].
  - apply Hf.
  - rewrite trace_bind. apply Forall_app. split.
    + apply Ht. left. reflexivity.
    + destruct (outcome (t s)) as [[s' [[e|] res]]|x].
      * apply Hf.
      * apply IH. intros t' Hin. apply Ht. right. exact Hin.
      * constructor.
Qed.

Lemma series_cons {S R : Type} (t : task S) (rest : list (task S)) (s : S)
    (results : list js_value)
    (final : option js_error -> list js_value -> M R) :
  series (t :: rest) s results final =
  bind (t s)
    (fun r =>
       match snd r with
       | (Some e, res) => final (Some e) (results ++ [res])
       | (None, res) => series rest (fst r) (results ++ [res]) final
       end).
Proof.
  cbn [series]. destruct (t s) as [tr [[s' [[e|] res]]|x]]; reflexivity.
Qed.

(** ** The calls of each task of reset_settings *)

Section TaskTraces.

Variable w : world.

Lemma load_plugin_trace (uid details : js_value) :
  trace (load_plugin w uid details) = [EGetPluginBySite uid].
Proof.
  unfold load_plugin. rewrite trace_emit_then. f_equal.
  destruct (getPluginBySite w uid) as [err plugin].
  destruct (negb (truthy plugin)); [reflexivity|].
  apply silent_bind; [apply silent_get_prop|]. intros _.
  apply silent_bind; [apply silent_read_global|]. intros loader.
  apply silent_bind; [apply silent_get_prop|]. intros dirName.
  apply silent_bind; [apply silent_call_load|]. intros d.
  apply silent_ret.
Qed.

Lemma reset_plugin_settings_run (details : js_value) :
  reset_plugin_settings w details =
  ([EResetSettings details], Normal (details, resetSettings w details)).
Proof. reflexivity. Qed.

Lemma reset_theme_settings_trace (details : js_value) :
  trace (reset_theme_settings w details) = [] \/
  trace (reset_theme_settings w details) = [EResetThemeSettings details].
Proof.
  unfold reset_theme_settings.
  destruct (silent_case _ (silent_get_prop details "theme"))
    as [[theme ->]|[x ->]]; [|left; reflexivity].
  rewrite bind_ret_l.
  destruct (negb (truthy theme)); [left; reflexivity|].
  destruct (silent_case _ (silent_get_prop theme "settings"))
    as [[settings ->]|[x ->]]; [|left; reflexivity].
  rewrite bind_ret_l, bind_ret_l.
  destruct (negb (truthy settings)); [left|right]; reflexivity.
Qed.

(** The reply of the completion callback. *)
Lemma reset_settings_done_reply (uid : js_value) (err : option js_error)
    (results : list js_value) :
  reset_settings_done w uid respond err results =
  ([ECallback (reset_settings_reply w uid err)], Normal tt).
Proof.
  destruct err as [e|].
  - apply reset_settings_done_error.
  - apply reset_settings_done_ok.
Qed.

(** The calls of a reset_settings request: the lookup, then calls of
    the two reset operations only, then at most the reply. *)
Lemma reset_settings_trace (uid : js_value) :
  exists pre tail,
    trace (reset_settings w uid respond) =
      EGetPluginBySite uid :: pre ++ tail /\
    Forall (fun e => is_resetSettings e || is_resetThemeSettings e = true)
           pre /\
    (tail = [] \/
     exists err, tail = [ECallback (reset_settings_reply w uid err)]).
Proof.
  unfold reset_settings, reset_settings_tasks.
  rewrite series_cons, trace_bind, load_plugin_trace.
  destruct (outcome (load_plugin w uid JNull)) as [[s' [[e|] res]]|x];
    cbn [fst snd].
  - exists [], [ECallback (reset_settings_reply w uid (Some e))].
    rewrite reset_settings_done_reply.
    split; [reflexivity|]. split; [constructor|]. right. eauto.
  - rewrite series_factor, trace_bind.
    set (run := series [reset_plugin_settings w; reset_theme_settings w] s'
                  ([] ++ [res]) (fun err rs => ret (err, rs))).
    exists (trace run),
      (match outcome run with
       | Normal p => trace (reset_settings_done w uid respond (fst p) (snd p))
       | Throw _ => []
       end).
    split; [reflexivity|]. split.
    + apply series_trace_Forall; [|intros; constructor].
      intros t [<-|[<-|[]]] s.
      * rewrite reset_plugin_settings_run. repeat constructor.
      * destruct (reset_theme_settings_trace s) as [-> | ->];
          repeat constructor.
    + destruct (outcome run) as [p|x]; [|left; reflexivity].
      rewrite reset_settings_done_reply. right. eauto.
  - exists [], []. split; [reflexivity|]. split; [constructor|].
    left. reflexivity.
Qed.

End TaskTraces.

(** ** Requests that do not pass validation *)

Section Rejection.

Variable w : world.
Implicit Types (action identifier : option string).

Lemma Object_prototype_get_miss (s : string) :
  s <> "__proto__" ->
  ~ In s Object_prototype_methods ->
  Object_prototype_get s = JUndefined.
Proof.
  intros Hp Hm. unfold Object_prototype_get.
  destruct (String.eqb_spec s "__proto__") as [E|_]; [contradiction|].
  destruct (Object_prototype !! s) as [v|] eqn:E; [|reflexivity].
  exfalso. apply Hm.
  unfold Object_prototype in E. apply elem_of_list_to_map_2 in E.
  apply list_elem_of_In in E. apply in_map_iff in E.
  destruct E as (k & [= <- _] & Hk). exact Hk.
Qed.

(** X1. A name that is neither a key of VALID_ACTIONS nor a member of
    Object.prototype, and an action that is not set, are rejected
    whatever the identifier: the reply is the 400 failure envelope with
    the invalid-action message alone. *)
Theorem render_rejects_unknown_name (s : string) identifier :
  ~ In s action_names ->
  s <> "__proto__" ->
  ~ In s Object_prototype_methods ->
  let rejected :=
    ([ECallback
        {| content :=
             {| status := API_FAILURE;
                env_message := "";
                data :=
                  Some (JArr [JStr (ls_g w "generic.VALID_ACTION_REQUIRED")])
             |};
           code := Some 400 |}],
     Normal tt) in
  render w (Some s) identifier respond = rejected /\
  render w None identifier respond = rejected.
Proof.
  intros Ha Hp Hm rejected.
  assert (Hs : valid_action (Some s) = JUndefined)
    by (apply valid_action_miss;
        [exact Ha | apply Object_prototype_get_miss; assumption]).
  unfold render.
  rewrite (lookup_miss_is_invalid_action w (Some s) identifier Hs).
  rewrite (lookup_miss_is_invalid_action w None identifier valid_action_unset).
  split; reflexivity.
Qed.

(** X2. An identifier that is not a non-empty string is rejected
    whatever the action, known or not: validation collects an error,
    the reply is the 400 failure envelope with the collected messages,
    and no handler is called. *)
Theorem render_rejects_empty_identifier action identifier :
  isNonEmptyStr w identifier = false ->
  validate w action identifier <> [] /\
  render w action identifier respond =
    ([ECallback
        {| content :=
             {| status := API_FAILURE;
                env_message := "";
                data :=
                  Some (JArr (map JStr (validate w action identifier))) |};
           code := Some 400 |}],
     Normal tt) /\
  calls is_handler_call (trace (render w action identifier respond)) = 0%nat.
Proof.
  intros Hi.
  assert (Hv : validate w action identifier <> []).
  { intros E. apply validated_request in E as (_ & _ & _ & E).
    rewrite Hi in E. discriminate E. }
  split; [exact Hv|]. apply render_rejects_invalid_request. exact Hv.
Qed.

(** X3. Each of the five actions, with an identifier that is a
    non-empty string, goes to the handler of its name with that
    identifier and the callback of the request; [render] itself adds no
    call. *)
Theorem render_routes_five_actions (id : string) (cb : callback) :
  (forall s, In s action_names -> isNonEmptyStr w (Some s) = true) ->
  isNonEmptyStr w (Some id) = true ->
  render w (Some "install") (Some id) cb = install w (JStr id) cb /\
  render w (Some "uninstall") (Some id) cb = uninstall w (JStr id) cb /\
  render w (Some "reset_settings") (Some id) cb
    = reset_settings w (JStr id) cb /\
  render w (Some "initialize") (Some id) cb = initialize w (JStr id) cb /\
  render w (Some "set_theme") (Some id) cb = set_theme w (JStr id) cb.
Proof.
  intros Ha Hi.
  repeat split;
    (rewrite render_routes_action;
     [reflexivity | simpl; tauto | apply Ha; simpl; tauto | exact Hi]).
Qed.

End Rejection.

Lemma render_rejects_unknown_name_witness :
  render node_host (Some "bogus") (Some "plugin-x") respond =
    ([ECallback
        {| content :=
             {| status := API_FAILURE;
                env_message := "";
                data := Some (JArr [JStr "generic.VALID_ACTION_REQUIRED"]) |};
           code := Some 400 |}],
     Normal tt).
Proof.
  apply (render_rejects_unknown_name node_host "bogus" (Some "plugin-x")).
  - simpl. intuition discriminate.
  - discriminate.
  - simpl. intuition discriminate.
Defined.

Lemma render_rejects_empty_identifier_witness :
  calls is_handler_call
    (trace (render node_host (Some "set_theme") None respond)) = 0%nat.
Proof.
  apply (render_rejects_empty_identifier node_host (Some "set_theme") None).
  reflexivity.
Defined.

Lemma render_routes_five_actions_witness :
  render node_host (Some "initialize") (Some "sample") respond =
  initialize node_host (JStr "sample") respond.
Proof.
  apply (render_routes_five_actions node_host "sample" respond).
  - intros s Hs. simpl in Hs.
    repeat (destruct Hs as [<-|Hs]; [reflexivity|]). destruct Hs.
  - reflexivity.
Defined.

(** ** How every request ends *)

Section Endings.

Variable w : world.
Variable uid : js_value.

Lemma install_well_ended :
  well_ended job_replies (trace (install w uid respond)) = true.
Proof.
  unfold install, read_global. destruct (globals w "name"); reflexivity.
Qed.

Lemma uninstall_well_ended :
  well_ended job_replies (trace (uninstall w uid respond)) = true.
Proof.
  destruct (globals w "options") as [o|] eqn:Hg.
  - destruct (silent_case _ (silent_get_prop o "forCluster"))
      as [[flag Hf]|[x Hf]].
    + rewrite (uninstall_on_host_binding_options w uid o flag Hg Hf).
      reflexivity.
    + unfold uninstall, read_global. rewrite Hg, bind_ret_l, Hf.
      reflexivity.
  - unfold uninstall, read_global. rewrite Hg. reflexivity.
Qed.

Lemma initialize_well_ended :
  well_ended initialize_replies (trace (initialize w uid respond)) = true.
Proof.
  unfold initialize.
  destruct (getPluginBySite w uid) as [[e|] plugin]; [reflexivity|].
  destruct (initPlugin w plugin); reflexivity.
Qed.

Lemma set_theme_well_ended :
  well_ended set_theme_replies (trace (set_theme w uid respond)) = true.
Proof.
  unfold set_theme.
  destruct (getPluginBySite w uid) as [err plugin].
  destruct (strict_ne_str uid (DEFAULT_THEME w)), err as [e|];
    try reflexivity; cbn [negb]; rewrite ?bind_ret_l;
    destruct (truthy plugin); cbn [negb]; rewrite ?bind_ret_l;
    try reflexivity;
    try (destruct (silent_case _ (silent_get_prop plugin "theme"))
           as [[theme ->]|[x ->]]; [|reflexivity];
         rewrite !bind_ret_l;
         destruct (isObject theme); cbn [negb]; [|reflexivity]);
    try (destruct (silent_case _ (silent_get_prop plugin "uid"))
           as [[puid ->]|[x ->]]; [|reflexivity];
         rewrite !bind_ret_l;
         destruct (settings_set w "active_theme" puid); reflexivity);
    destruct (settings_set w "active_theme" uid); reflexivity.
Qed.

Lemma reset_settings_well_ended :
  well_ended reset_settings_replies (trace (reset_settings w uid respond))
  = true.
Proof.
  destruct (reset_settings_trace w uid) as (pre & tail & -> & Hpre & Htail).
  apply (well_ended_app _ (EGetPluginBySite uid :: pre)).
  - constructor; [reflexivity|].
    eapply Forall_impl; [exact Hpre|].
    intros e He. destruct e; try discriminate He; reflexivity.
  - destruct Htail as [-> | [[e|] ->]]; reflexivity.
Qed.

End Endings.

Lemma calls_terminal (t : list event) :
  (calls is_callback t + calls is_serve404 t)%nat = calls is_terminal t.
Proof.
  unfold calls. induction t as [|e t IH]; [reflexivity|].
  destruct e; cbn [List.filter is_terminal is_callback is_serve404 orb length];
    lia.
Qed.

Lemma reply_in_In allowed (r : response) :
  reply_in allowed r = true -> In (status (content r), code r) allowed.
Proof.
  unfold reply_in. intros H.
  apply existsb_exists in H as ([st c] & Hp & Hr).
  apply andb_true_iff in Hr as [Hs Hc]. cbn [fst snd] in Hs, Hc.
  replace (status (content r)) with st.
  - replace (code r) with c; [exact Hp|].
    destruct (code r) as [x|], c as [y|]; try discriminate Hc;
      [apply Z.eqb_eq in Hc; congruence | reflexivity].
  - destruct (status (content r)), st; try discriminate Hs; reflexivity.
Qed.

(** The replies of a well-ended trace are allowed ones. *)
Lemma well_ended_replies allowed (t : list event) (r : response) :
  well_ended allowed t = true ->
  In (ECallback r) t ->
  In (status (content r), code r) allowed.
Proof.
  induction t as [|e t IH]; intros H Hin; [destruct Hin|].
  destruct t as [|e' t'].
  - destruct Hin as [->|[]]. apply reply_in_In. exact H.
  - cbn [well_ended] in H. apply andb_true_iff in H as [He Ht].
    destruct Hin as [->|Hin]; [discriminate He|].
    exact (IH Ht Hin).
Qed.

Section EndingsOfRender.

Variable w : world.

Lemma render_well_ended (action identifier : option string) :
  well_ended all_replies (trace (render w action identifier respond)) = true.
Proof.
  unfold render.
  destruct (validate w action identifier) as [|m ms]; [|reflexivity].
  cbn [length Z.of_nat Z.ltb Z.compare].
  unfold this_member.
  repeat match goal with
         | |- context [String.eqb ?a ?b] => destruct (String.eqb a b)
         end;
    try reflexivity;
    [ apply (well_ended_incl job_replies); [|apply install_well_ended]
    | apply (well_ended_incl job_replies); [|apply uninstall_well_ended]
    | apply (well_ended_incl reset_settings_replies);
        [|apply reset_settings_well_ended]
    | apply (well_ended_incl initialize_replies);
        [|apply initialize_well_ended]
    | apply (well_ended_incl set_theme_replies);
        [|apply set_theme_well_ended] ];
    intros p; simpl; tauto.
Qed.

(** X4. Whatever the request, [render] ends it at most once: its trace
    holds at most one reply or 404, never both, and no call of any
    collaborator follows it. *)
Theorem render_ends_at_most_once (action identifier : option string) :
  let t := trace (render w action identifier respond) in
  (calls is_callback t + calls is_serve404 t <= 1)%nat /\
  forall pre e post,
    t = pre ++ e :: post ->
    is_callback e || is_serve404 e = true ->
    post = [].
Proof.
  intros t. rewrite calls_terminal.
  exact (well_ended_terminal_last all_replies t
           (render_well_ended action identifier)).
Qed.

(** X5. The status and the code of every reply, handler by handler:
    install and uninstall reply Success without a code; reset_settings
    Success without a code or Failure with 400; initialize Success with
    200 or Failure with 400 or 500; set_theme Success with 200 or
    Failure with 500. *)
Theorem handler_reply_table (uid : js_value) (r : response) :
  (In (ECallback r) (trace (install w uid respond)) ->
   In (status (content r), code r) [(API_SUCCESS, None)]) /\
  (In (ECallback r) (trace (uninstall w uid respond)) ->
   In (status (content r), code r) [(API_SUCCESS, None)]) /\
  (In (ECallback r) (trace (reset_settings w uid respond)) ->
   In (status (content r), code r)
      [(API_SUCCESS, None); (API_FAILURE, Some 400)]) /\
  (In (ECallback r) (trace (initialize w uid respond)) ->
   In (status (content r), code r)
      [(API_SUCCESS, Some 200); (API_FAILURE, Some 400);
       (API_FAILURE, Some 500)]) /\
  (In (ECallback r) (trace (set_theme w uid respond)) ->
   In (status (content r), code r)
      [(API_SUCCESS, Some 200); (API_FAILURE, Some 500)]).
Proof.
  repeat split.
  - apply (well_ended_replies job_replies), install_well_ended.
  - apply (well_ended_replies job_replies), uninstall_well_ended.
  - apply (well_ended_replies reset_settings_replies),
      reset_settings_well_ended.
  - apply (well_ended_replies initialize_replies), initialize_well_ended.
  - apply (well_ended_replies set_theme_replies), set_theme_well_ended.
Qed.

End EndingsOfRender.

Lemma handler_reply_table_witness :
  In (API_FAILURE, Some 500)
     [(API_SUCCESS, Some 200); (API_FAILURE, Some 500)].
Proof.
  apply (handler_reply_table node_host (JStr "broken")
           {| content :=
                {| status := API_FAILURE;
                   env_message := "generic.SET_THEME_FAILED:broken";
                   data := Some (JArr [JStr "lookup failed"]) |};
              code := Some 500 |}).
  right. left. reflexivity.
Defined.

(** ** set_theme with a plugin that has a theme *)

Section SetThemeApplies.

Variable w : world.

(** X6. For an identifier other than the default theme, a lookup
    without error that gives a plugin object whose theme is an object
    makes set_theme persist the uid of the plugin (not the identifier
    of the request) under active_theme, serve no 404, and reply
    Success with 200 when the persistence succeeds, Failure with 500
    and the message of the error when it fails. *)
Theorem set_theme_applies_plugin_uid (uid : js_value)
    (props theme : gmap string js_value) :
  strict_ne_str uid (DEFAULT_THEME w) = true ->
  getPluginBySite w uid = (None, JObj props) ->
  props !! "theme" = Some (JObj theme) ->
  let applied := get_own_or_inherited props "uid" in
  set_theme w uid respond =
    ([EGetPluginBySite uid;
      ESettingsSet "active_theme" applied;
      ECallback
        match settings_set w "active_theme" applied with
        | Some e =>
            {| content :=
                 {| status := API_FAILURE;
                    env_message :=
                      format w (ls_g w "generic.SET_THEME_FAILED") uid;
                    data := Some (JArr [JStr (message e)]) |};
               code := Some 500 |}
        | None =>
            {| content :=
                 {| status := API_SUCCESS;
                    env_message :=
                      format w (ls_g w "generic.SET_THEME_SUCCESS") uid;
                    data := None |};
               code := Some 200 |}
        end],
     Normal tt).
Proof.
  intros Hne Hl Ht applied. unfold set_theme. rewrite Hne, Hl.
  cbn [negb truthy get_prop]. unfold get_own_or_inherited at 1.
  rewrite Ht. rewrite !bind_ret_l. cbn [isObject negb].
  rewrite ?bind_ret_l. fold applied.
  destruct (settings_set w "active_theme" applied); reflexivity.
Qed.

End SetThemeApplies.

Lemma set_theme_applies_plugin_uid_witness :
  set_theme node_host (JStr "sample") respond =
    ([EGetPluginBySite (JStr "sample");
      ESettingsSet "active_theme" (JStr "sample");
      ECallback
        {| content :=
             {| status := API_SUCCESS;
                env_message := "generic.SET_THEME_SUCCESS:sample";
                data := None |};
           code := Some 200 |}],
     Normal tt).
Proof.
  exact (set_theme_applies_plugin_uid node_host (JStr "sample")
           (<["uid" := JStr "sample"]>
              (<["dirName" := JStr "sample"]>
                 (<["theme" := JObj (<["settings" := JArr []]> ∅)]> ∅)))
           (<["settings" := JArr []]> ∅)
           eq_refl eq_refl eq_refl).
Defined.

(** ** reset_settings on a host with a details loader *)

Section Pipeline.

Variable w : world.
Variable uid : js_value.

(** The Load step on such a host: the details are what the loader gives
    for the directory name of the plugin, and Load calls back without
    error even when they are null. *)
Lemma load_plugin_loads (s : js_value) (err : option js_error)
    (plugin dir : js_value) :
  binds_loader w ->
  getPluginBySite w uid = (err, plugin) ->
  truthy plugin = true ->
  get_prop plugin "dirName" = ret dir ->
  load_plugin w uid s =
    ([EGetPluginBySite uid],
     Normal (loader_load w dir,
             (None, JBool (truthy (loader_load w dir))))).
Proof.
  intros (o & f & Hg & Hl) Hp Ht Hd. unfold load_plugin.
  rewrite Hp, Ht. cbn [negb]. rewrite Hd, bind_ret_l.
  unfold read_global. rewrite Hg, bind_ret_l, bind_ret_l.
  unfold call_load. rewrite Hl, !bind_ret_l. reflexivity.
Qed.

(** X7. The theme step is a no-op that succeeds when the details have
    no theme, or a theme without settings: it calls back with no error
    and result [true], and the theme settings reset is not called. *)
Theorem reset_theme_settings_skips_without_settings
    (details theme : js_value) :
  get_prop details "theme" = ret theme ->
  truthy theme = false \/
  (exists settings,
      get_prop theme "settings" = ret settings /\ truthy settings = false) ->
  reset_theme_settings w details =
    ([], Normal (details, (None, JBool true))).
Proof.
  intros Ht H. unfold reset_theme_settings. rewrite Ht, bind_ret_l.
  destruct H as [Hf | (settings & Hs & Hf)].
  - rewrite Hf. reflexivity.
  - destruct (truthy theme); [|reflexivity].
    cbn [negb]. rewrite Hs, !bind_ret_l, Hf. reflexivity.
Qed.

(** X8. When the settings reset calls back with an error, the theme
    settings reset is not called: the run is the lookup, the settings
    reset on the loaded details and the 400 reply with the aggregated
    messages of that error. *)
Theorem reset_settings_stops_at_settings_error
    (err : option js_error) (plugin dir res : js_value) (e : js_error) :
  binds_loader w ->
  getPluginBySite w uid = (err, plugin) ->
  truthy plugin = true ->
  get_prop plugin "dirName" = ret dir ->
  resetSettings w (loader_load w dir) = (Some e, res) ->
  reset_settings w uid respond =
    ([EGetPluginBySite uid;
      EResetSettings (loader_load w dir);
      ECallback (reset_settings_reply w uid (Some e))],
     Normal tt).
Proof.
  intros Hb Hp Ht Hd Hr. unfold reset_settings, reset_settings_tasks.
  rewrite series_cons, (load_plugin_loads JNull err plugin dir Hb Hp Ht Hd).
  cbn [bind fst snd].
  rewrite series_cons, reset_plugin_settings_run, Hr. cbn [bind fst snd].
  rewrite reset_settings_done_reply. reflexivity.
Qed.

(** X9. When the loaded details have theme settings and the settings
    reset succeeds, both reset operations receive the same details, the
    ones the loader gave, in this order, and the reply follows the theme
    settings reset: Success, or 400 with the aggregated messages of its
    error. *)
Theorem reset_settings_resets_theme_settings
    (err : option js_error) (plugin dir res theme settings : js_value) :
  binds_loader w ->
  getPluginBySite w uid = (err, plugin) ->
  truthy plugin = true ->
  get_prop plugin "dirName" = ret dir ->
  let details := loader_load w dir in
  resetSettings w details = (None, res) ->
  get_prop details "theme" = ret theme ->
  truthy theme = true ->
  get_prop theme "settings" = ret settings ->
  truthy settings = true ->
  reset_settings w uid respond =
    ([EGetPluginBySite uid;
      EResetSettings details;
      EResetThemeSettings details;
      ECallback
        (reset_settings_reply w uid (fst (resetThemeSettings w details)))],
     Normal tt).
Proof.
  intros Hb Hp Ht Hd details Hr Hth Htt Hs Hst.
  unfold reset_settings, reset_settings_tasks.
  rewrite series_cons, (load_plugin_loads JNull err plugin dir Hb Hp Ht Hd).
  cbn [bind fst snd]. fold details.
  rewrite series_cons, reset_plugin_settings_run, Hr. cbn [bind fst snd].
  rewrite series_cons. unfold reset_theme_settings.
  rewrite Hth, bind_ret_l, Htt. cbn [negb].
  rewrite Hs, !bind_ret_l, Hst. cbn [negb].
  destruct (resetThemeSettings w details) as [[e|] r];
    cbn [bind fst snd series emit ret app];
    rewrite reset_settings_done_reply; reflexivity.
Qed.

(** X10. A loader that gives null or undefined does not fail the Load
    step: the settings reset is still called, with that value, and when
    it reports no error the theme step raises a TypeError on reading
    [details.theme]; the request gets no reply. *)
Theorem reset_settings_null_details_raise
    (err : option js_error) (plugin dir res : js_value) :
  binds_loader w ->
  getPluginBySite w uid = (err, plugin) ->
  truthy plugin = true ->
  get_prop plugin "dirName" = ret dir ->
  loader_load w dir = JNull \/ loader_load w dir = JUndefined ->
  resetSettings w (loader_load w dir) = (None, res) ->
  reset_settings w uid respond =
    ([EGetPluginBySite uid; EResetSettings (loader_load w dir)],
     Throw (TypeError "theme")).
Proof.
  intros Hb Hp Ht Hd Hn Hr. unfold reset_settings, reset_settings_tasks.
  rewrite series_cons, (load_plugin_loads JNull err plugin dir Hb Hp Ht Hd).
  cbn [bind fst snd].
  rewrite series_cons, reset_plugin_settings_run, Hr. cbn [bind fst snd].
  rewrite series_cons. unfold reset_theme_settings.
  destruct Hn as [-> | ->]; reflexivity.
Qed.

End Pipeline.

Lemma reset_theme_settings_skips_without_settings_witness :
  reset_theme_settings node_host plain_plugin =
    ([], Normal (plain_plugin, (None, JBool true))).
Proof.
  apply (reset_theme_settings_skips_without_settings
           node_host plain_plugin JUndefined).
  - reflexivity.
  - left. reflexivity.
Defined.

Lemma reset_settings_stops_at_settings_error_witness :
  reset_settings (loader_host themed_details (Some invalid_settings) None)
    (JStr "sample") respond =
    ([EGetPluginBySite (JStr "sample");
      EResetSettings themed_details;
      ECallback
        {| content :=
             {| status := API_FAILURE;
                env_message := "generic.RESET_SETTINGS_FAILED:sample";
                data := Some (JArr [JStr "settings are invalid";
                                    JStr "name is required";
                                    JStr "value is required"]) |};
           code := Some 400 |}],
     Normal tt).
Proof.
  apply (reset_settings_stops_at_settings_error
           (loader_host themed_details (Some invalid_settings) None)
           (JStr "sample") None sample_plugin (JStr "sample") (JBool false)
           invalid_settings);
    [exists (JObj (<["load" := JFun "load"]> ∅)), "load"; split; reflexivity
    | reflexivity ..].
Defined.

Lemma reset_settings_resets_theme_settings_witness :
  reset_settings (loader_host themed_details None None)
    (JStr "sample") respond =
    ([EGetPluginBySite (JStr "sample");
      EResetSettings themed_details;
      EResetThemeSettings themed_details;
      ECallback
        {| content :=
             {| status := API_SUCCESS;
                env_message := "generic.RESET_SETTINGS_SUCCESS:sample";
                data := None |};
           code := None |}],
     Normal tt).
Proof.
  apply (reset_settings_resets_theme_settings
           (loader_host themed_details None None)
           (JStr "sample") None sample_plugin (JStr "sample") (JBool true)
           (JObj (<["settings" := JArr [JStr "color"]]> ∅))
           (JArr [JStr "color"]));
    [exists (JObj (<["load" := JFun "load"]> ∅)), "load"; split; reflexivity
    | reflexivity ..].
Defined.

Lemma reset_settings_null_details_raise_witness :
  reset_settings (loader_host JNull None None) (JStr "sample") respond =
    ([EGetPluginBySite (JStr "sample"); EResetSettings JNull],
     Throw (TypeError "theme")).
Proof.
  apply (reset_settings_null_details_raise
           (loader_host JNull None None)
           (JStr "sample") None sample_plugin (JStr "sample") (JBool true));
    [exists (JObj (<["load" := JFun "load"]> ∅)), "load"; split; reflexivity
    | reflexivity | reflexivity | reflexivity
    | left; reflexivity | reflexivity].
Defined.

(** ** Jobs on a host that binds the free identifiers *)

Section JobsOnBindingHost.

Variable w : world.
Variable uid : js_value.

(** X11. On a host whose global object binds [name], install creates
    the job with [initiator: true], initialises it with the value of
    that global (not with the name created for the job), marks it as
    initiator, runs it and replies Success with the id of the job; with
    no callback given it does the same and replies to nobody. *)
Theorem install_on_host_with_name (v : js_value) :
  globals w "name" = Some v ->
  let ctx := {| ctx_name := createName w InstallJob uid;
                pluginUid := uid;
                initiator := true |} in
  let job_calls :=
    [ENewJob InstallJob ctx;
     EJobInit InstallJob v;
     ESetRunAsInitiator InstallJob true;
     EJobRun InstallJob] in
  install w uid respond =
    (job_calls ++
     [ECallback
        {| content :=
             {| status := API_SUCCESS;
                env_message := "";
                data := Some (getId w InstallJob ctx) |};
           code := None |}],
     Normal tt) /\
  install w uid None = (job_calls, Normal tt).
Proof.
  intros Hg ctx job_calls. split.
  - apply install_on_host_binding_name. exact Hg.
  - unfold install, read_global. rewrite Hg. reflexivity.
Qed.

(** X12. On a host whose global object binds [options] to an object,
    uninstall creates the job and marks it with the same flag, which is
    false only when [options.forCluster] is the boolean false, runs it
    and replies Success with the id of the job; with no callback given
    it raises a TypeError after the job has been run. *)
Theorem uninstall_on_host_with_options (o flag : js_value) :
  globals w "options" = Some o ->
  get_prop o "forCluster" = ret flag ->
  let b := strict_ne_false flag in
  let ctx := {| ctx_name := createName w UninstallJob uid;
                pluginUid := uid;
                initiator := b |} in
  let job_calls :=
    [ENewJob UninstallJob ctx;
     EJobInit UninstallJob (JStr (createName w UninstallJob uid));
     ESetRunAsInitiator UninstallJob b;
     EJobRun UninstallJob] in
  (b = false <-> flag = JBool false) /\
  uninstall w uid respond =
    (job_calls ++
     [ECallback
        {| content :=
             {| status := API_SUCCESS;
                env_message := "";
                data := Some (getId w UninstallJob ctx) |};
           code := None |}],
     Normal tt) /\
  uninstall w uid None = (job_calls, Throw (TypeError "cb")).
Proof.
  intros Hg Hf b ctx job_calls. split; [|split].
  - subst b. split.
    + destruct flag as [| |[|]| | | | |]; try discriminate; reflexivity.
    + intros ->. reflexivity.
  - exact (uninstall_on_host_binding_options w uid o flag Hg Hf).
  - unfold uninstall, read_global.
    rewrite Hg, bind_ret_l, Hf, bind_ret_l. cbn.
    rewrite Hf. reflexivity.
Qed.

(** X13. In every run of install and of uninstall the flag the job is
    marked with is the [initiator] of the context it was created with;
    for install both are true. *)
Theorem job_initiator_agrees (k k' : job_kind) (ctx : job_ctx) (b : bool) :
  (In (ENewJob k ctx) (trace (install w uid respond)) ->
   In (ESetRunAsInitiator k' b) (trace (install w uid respond)) ->
   initiator ctx = true /\ b = true) /\
  (In (ENewJob k ctx) (trace (uninstall w uid respond)) ->
   In (ESetRunAsInitiator k' b) (trace (uninstall w uid respond)) ->
   initiator ctx = b).
Proof.
  split.
  - destruct (globals w "name") as [v|] eqn:Hg.
    + rewrite (install_on_host_binding_name w uid v Hg). cbn [trace fst].
      intros Hn Hs.
      destruct Hn as [Hn|[Hn|[Hn|[Hn|[Hn|[]]]]]]; try discriminate Hn.
      destruct Hs as [Hs|[Hs|[Hs|[Hs|[Hs|[]]]]]]; try discriminate Hs.
      injection Hn as _ <-. injection Hs as _ <-. split; reflexivity.
    + unfold install, read_global. rewrite Hg. cbn.
      intros _ [Hs|[]]. discriminate Hs.
  - destruct (globals w "options") as [o|] eqn:Hg.
    + destruct (silent_case _ (silent_get_prop o "forCluster"))
        as [[flag Hf]|[x Hf]].
      * rewrite (uninstall_on_host_binding_options w uid o flag Hg Hf).
        cbn [trace fst]. intros Hn Hs.
        destruct Hn as [Hn|[Hn|[Hn|[Hn|[Hn|[]]]]]]; try discriminate Hn.
        destruct Hs as [Hs|[Hs|[Hs|[Hs|[Hs|[]]]]]]; try discriminate Hs.
        injection Hn as _ <-. injection Hs as _ <-. reflexivity.
      * unfold uninstall, read_global. rewrite Hg, bind_ret_l, Hf.
        intros [].
    + unfold uninstall, read_global. rewrite Hg. intros [].
Qed.

End JobsOnBindingHost.

Lemma install_on_host_with_name_witness :
  install (ambient_host JUndefined None) (JStr "plugin-x") None =
    ([ENewJob InstallJob
        {| ctx_name := "INSTALL_plugin-x";
           pluginUid := JStr "plugin-x";
           initiator := true |};
      EJobInit InstallJob (JStr "ambient");
      ESetRunAsInitiator InstallJob true;
      EJobRun InstallJob],
     Normal tt).
Proof.
  apply (install_on_host_with_name
           (ambient_host JUndefined None) (JStr "plugin-x") (JStr "ambient")).
  reflexivity.
Defined.

Lemma uninstall_on_host_with_options_witness :
  uninstall (ambient_host (JBool false) None) (JStr "plugin-x") None =
    ([ENewJob UninstallJob
        {| ctx_name := "UNINSTALL_plugin-x";
           pluginUid := JStr "plugin-x";
           initiator := false |};
      EJobInit UninstallJob (JStr "UNINSTALL_plugin-x");
      ESetRunAsInitiator UninstallJob false;
      EJobRun UninstallJob],
     Throw (TypeError "cb")).
Proof.
  apply (uninstall_on_host_with_options
           (ambient_host (JBool false) None) (JStr "plugin-x")
           (JObj (<["forCluster" := JBool false]> ∅)) (JBool false));
    reflexivity.
Defined.

Lemma job_initiator_agrees_witness :
  initiator {| ctx_name := "UNINSTALL_plugin-x";
               pluginUid := JStr "plugin-x";
               initiator := false |} = false.
Proof.
  apply (job_initiator_agrees
           (ambient_host (JBool false) None) (JStr "plugin-x")
           UninstallJob UninstallJob).
  - left. reflexivity.
  - right. right. left. reflexivity.
Defined.

(** ** Plugin lookups *)

Section Lookups.

Variable w : world.
Variable uid : js_value.

(** X14. reset_settings, initialize and set_theme look the plugin up
    exactly once per request, with the identifier of the request and
    before any other call; install and uninstall never look a plugin
    up. *)
Theorem handlers_look_up_once :
  calls is_lookup (trace (install w uid respond)) = 0%nat /\
  calls is_lookup (trace (uninstall w uid respond)) = 0%nat /\
  (exists rest,
      trace (reset_settings w uid respond) = EGetPluginBySite uid :: rest /\
      calls is_lookup rest = 0%nat) /\
  (exists rest,
      trace (initialize w uid respond) = EGetPluginBySite uid :: rest /\
      calls is_lookup rest = 0%nat) /\
  (exists rest,
      trace (set_theme w uid respond) = EGetPluginBySite uid :: rest /\
      calls is_lookup rest = 0%nat).
Proof.
  split; [|split; [|split; [|split]]].
  - unfold install, read_global. destruct (globals w "name"); reflexivity.
  - destruct (globals w "options") as [o|] eqn:Hg.
    + destruct (silent_case _ (silent_get_prop o "forCluster"))
        as [[flag Hf]|[x Hf]].
      * rewrite (uninstall_on_host_binding_options w uid o flag Hg Hf).
        reflexivity.
      * unfold uninstall, read_global. rewrite Hg, bind_ret_l, Hf.
        reflexivity.
    + unfold uninstall, read_global. rewrite Hg. reflexivity.
  - destruct (reset_settings_trace w uid) as (pre & tail & -> & Hpre & Htail).
    exists (pre ++ tail). split; [reflexivity|].
    rewrite calls_app, (calls_none is_lookup pre).
    + destruct Htail as [-> | [err ->]]; reflexivity.
    + eapply Forall_impl; [exact Hpre|].
      intros e He. destruct e; try discriminate He; reflexivity.
  - unfold initialize. rewrite trace_emit_then.
    eexists. split; [reflexivity|].
    destruct (getPluginBySite w uid) as [[e|] plugin]; [reflexivity|].
    destruct (initPlugin w plugin); reflexivity.
  - unfold set_theme. rewrite trace_emit_then.
    eexists. split; [reflexivity|].
    destruct (getPluginBySite w uid) as [err plugin].
    destruct (strict_ne_str uid (DEFAULT_THEME w)), err as [e|];
      try reflexivity; cbn [negb]; rewrite ?bind_ret_l;
      destruct (truthy plugin); cbn [negb]; rewrite ?bind_ret_l;
      try reflexivity;
      try (destruct (silent_case _ (silent_get_prop plugin "theme"))
             as [[theme ->]|[x ->]]; [|reflexivity];
           rewrite !bind_ret_l;
           destruct (isObject theme); cbn [negb]; [|reflexivity]);
      try (destruct (silent_case _ (silent_get_prop plugin "uid"))
             as [[puid ->]|[x ->]]; [|reflexivity];
           rewrite !bind_ret_l;
           destruct (settings_set w "active_theme" puid); reflexivity);
      destruct (settings_set w "active_theme" uid); reflexivity.
Qed.

End Lookups.

(** ** The requests that pass validation *)

Section Acceptance.

Variable w : world.

(** X15. Validation collects no error exactly when the action is a
    non-empty string that names one of the five actions or a member of
    Object.prototype, and the identifier is a non-empty string. *)
Theorem validate_accepts_exactly (action identifier : option string) :
  validate w action identifier = [] <->
  (exists s,
      action = Some s /\
      (In s action_names \/ s = "__proto__" \/
       In s Object_prototype_methods)) /\
  isNonEmptyStr w action = true /\
  isNonEmptyStr w identifier = true.
Proof.
  split.
  - intros H. apply validated_request in H as (Hn & Ha & Hs & Hi).
    split; [|split; assumption].
    exists (path_key action). split; assumption.
  - intros ((s & -> & Hn) & Hs & Hi). unfold validate. rewrite Hs, Hi.
    destruct Hn as [Hn|[->|Hn]].
    + rewrite (valid_action_own s Hn). reflexivity.
    + reflexivity.
    + each_name Hn reflexivity.
Qed.

End Acceptance.

Lemma validate_accepts_exactly_witness :
  validate node_host (Some "hasOwnProperty") (Some "plugin-x") = [].
Proof.
  apply (validate_accepts_exactly node_host).
  split; [|split; reflexivity].
  exists "hasOwnProperty". split; [reflexivity|].
  right. right. simpl. tauto.
Defined.
